(** * Fund Performance Analysis System: a shallow embedding of the front end
    and of the metrics pipeline, with the properties of its specification.

    The TypeScript components are embedded as pure functions over the data
    they receive: page numbers and fund ids as [Z], strings as [string],
    JavaScript values as a small tagged union, a rendered React tree as the
    record of the strings it shows.  The Python back end (metrics engine,
    IRR routine, table classifier) is embedded over exact rationals. *)

From Stdlib Require Import ZArith QArith Qabs Qround List String Ascii Bool Lia.
From stdpp Require Import base numbers list strings sets.

Local Open Scope Z_scope.

(** ** components/Pagination.tsx *)
Module Pagination.

(** [maxVisiblePages] of [getPageNumbers]. *)
Definition maxVisiblePages : Z := 5.

(** [getPageNumbers]: the window of page buttons.  [Math.floor(5 / 2)] is
    [5 / 2] on [Z]; the [for] loop pushes [startPage .. endPage], which is
    [seqZ startPage (endPage - startPage + 1)] (empty when the length is
    not positive, as the loop is). *)
Definition getPageNumbers (currentPage totalPages : Z) : list Z :=
  let startPage := Z.max 1 (currentPage - maxVisiblePages / 2) in
  let endPage := Z.min totalPages (startPage + maxVisiblePages - 1) in
  let startPage :=
    if endPage - startPage + 1 <? maxVisiblePages
    then Z.max 1 (endPage - maxVisiblePages + 1)
    else startPage in
  seqZ startPage (endPage - startPage + 1).

(** [handlePageChange]: the calls made to the [onPageChange] callback, in
    order. *)
Definition handlePageChange (totalPages page : Z) : list Z :=
  if (1 <=? page) && (page <=? totalPages) then [page] else [].

Example getPageNumbers_first : getPageNumbers 1 10 = [1; 2; 3; 4; 5].
Proof. reflexivity. Qed.

Example getPageNumbers_last : getPageNumbers 10 10 = [6; 7; 8; 9; 10].
Proof. reflexivity. Qed.

Example getPageNumbers_short : getPageNumbers 2 3 = [1; 2; 3].
Proof. reflexivity. Qed.

(** The window is [seqZ s len] for an explicit start and length. *)
Lemma getPageNumbers_window (c t : Z) :
  1 <= c <= t ->
  exists s, getPageNumbers c t = seqZ s (Z.min 5 t)
            /\ 1 <= s /\ s <= c /\ c < s + Z.min 5 t /\ s + Z.min 5 t - 1 <= t.
Proof.
  intros Hc. unfold getPageNumbers, maxVisiblePages.
  change (5 / 2) with 2.
  destruct (Z.ltb_spec (Z.min t (Z.max 1 (c - 2) + 5 - 1) - Z.max 1 (c - 2) + 1) 5) as [Hlt | Hge].
  - exists (Z.max 1 (Z.min t (Z.max 1 (c - 2) + 5 - 1) - 5 + 1)).
    split; [f_equal; lia | lia].
  - exists (Z.max 1 (c - 2)).
    split; [f_equal; lia | lia].
Qed.

(** C8. For [1 <= currentPage <= totalPages], [getPageNumbers] is a run of
    consecutive integers of length [min 5 totalPages], all within
    [1 .. totalPages], containing [currentPage]; and [handlePageChange]
    calls [onPageChange page] (once) exactly when [1 <= page <= totalPages],
    and makes no call otherwise. *)
Theorem pagination_window_and_guard (currentPage totalPages : Z) :
  1 <= currentPage <= totalPages ->
  (exists s, getPageNumbers currentPage totalPages = seqZ s (Z.min 5 totalPages))
  /\ length (getPageNumbers currentPage totalPages) = Z.to_nat (Z.min 5 totalPages)
  /\ Forall (fun p => 1 <= p <= totalPages) (getPageNumbers currentPage totalPages)
  /\ currentPage ∈ getPageNumbers currentPage totalPages
  /\ (forall page, handlePageChange totalPages page = [page] <-> 1 <= page <= totalPages)
  /\ (forall page, handlePageChange totalPages page = [] <-> ~ (1 <= page <= totalPages)).
Proof.
  intros Hc.
  destruct (getPageNumbers_window currentPage totalPages Hc) as (s & Hs & H1 & H2 & H3 & H4).
  rewrite Hs. split_and!.
  - by exists s.
  - apply length_seqZ.
  - apply Forall_forall. intros p Hp%elem_of_seqZ. lia.
  - apply elem_of_seqZ. lia.
  - intros page. unfold handlePageChange.
    destruct (Z.leb_spec 1 page), (Z.leb_spec page totalPages); simpl;
      (split; [intros; try discriminate; lia | intros; try reflexivity; lia]).
  - intros page. unfold handlePageChange.
    destruct (Z.leb_spec 1 page), (Z.leb_spec page totalPages); simpl;
      (split; [intros; try discriminate; lia | intros; try reflexivity; lia]).
Qed.

Lemma pagination_window_and_guard_witness :
  getPageNumbers 7 9 = [5; 6; 7; 8; 9]
  /\ handlePageChange 9 9 = [9] /\ handlePageChange 9 10 = [].
Proof.
  destruct (pagination_window_and_guard 7 9 ltac:(lia)) as (_ & _ & _ & _ & Hy & Hn).
  split; [reflexivity |].
  split; [apply Hy; lia | apply Hn; lia].
Defined.

(** *** The rest of the pager *)

(** The window in closed form, whatever the arguments. *)
Lemma getPageNumbers_closed (c t : Z) :
  getPageNumbers c t = seqZ (Z.max 1 (Z.min (c - 2) (t - 4))) (Z.min 5 t).
Proof.
  unfold getPageNumbers, maxVisiblePages. change (5 / 2) with 2.
  destruct (Z.le_gt_cases t 0) as [Ht | Ht].
  - rewrite !seqZ_nil; [done | lia |].
    destruct (Z.ltb_spec (Z.min t (Z.max 1 (c - 2) + 5 - 1) - Z.max 1 (c - 2) + 1) 5); lia.
  - destruct (Z.ltb_spec (Z.min t (Z.max 1 (c - 2) + 5 - 1) - Z.max 1 (c - 2) + 1) 5);
      f_equal; lia.
Qed.

(** A button of the pager: the page its click asks for, and its [disabled]
    attribute. *)
Record Button : Type := {
  target : Z;
  disabled : bool
}.

(** The buttons in the order they are rendered: first, previous, the page
    numbers, next, last. *)
Definition buttons (currentPage totalPages : Z) : list Button :=
  [ {| target := 1; disabled := currentPage =? 1 |};
    {| target := currentPage - 1; disabled := currentPage =? 1 |} ]
  ++ map (fun page => {| target := page; disabled := false |})
         (getPageNumbers currentPage totalPages)
  ++ [ {| target := currentPage + 1; disabled := currentPage =? totalPages |};
       {| target := totalPages; disabled := currentPage =? totalPages |} ].

(** The calls to [onPageChange] that a click on a button makes: a disabled
    button fires no click. *)
Definition click (totalPages : Z) (b : Button) : list Z :=
  if disabled b then [] else handlePageChange totalPages (target b).

(** The two numbers of "Showing ... to ... of ... results". *)
Definition showingFrom (currentPage : Z) : Z := (currentPage - 1) * 10 + 1.

Definition showingTo (currentPage totalCount : Z) : Z :=
  Z.min (currentPage * 10) totalCount.

Example buttons_first_page :
  map (click 3) (buttons 1 3) = [[]; []; [1]; [2]; [3]; [2]; [3]].
Proof. reflexivity. Qed.

(** X1. Whatever [currentPage] is (also outside [1 .. totalPages]), the
    page numbers are a run of [min 5 totalPages] consecutive integers that
    starts at [max 1 (min (currentPage - 2) (totalPages - 4))], all within
    [1 .. totalPages]; there is none when [totalPages] is not positive. *)
Theorem getPageNumbers_any_page (currentPage totalPages : Z) :
  getPageNumbers currentPage totalPages
  = seqZ (Z.max 1 (Z.min (currentPage - 2) (totalPages - 4))) (Z.min 5 totalPages)
  /\ Forall (fun p => 1 <= p <= totalPages) (getPageNumbers currentPage totalPages)
  /\ length (getPageNumbers currentPage totalPages) = Z.to_nat (Z.min 5 totalPages)
  /\ (totalPages <= 0 -> getPageNumbers currentPage totalPages = []).
Proof.
  rewrite getPageNumbers_closed. split_and!.
  - done.
  - apply Forall_seqZ. lia.
  - apply length_seqZ.
  - intros Ht. apply seqZ_nil. lia.
Qed.

Lemma seqZ_five (s : Z) : seqZ s 5 = [s; s + 1; s + 2; s + 3; s + 4].
Proof.
  cbv [seqZ]. simpl. repeat (apply (f_equal2 cons); [lia |]). done.
Qed.

(** X2. With at least five pages the window slides with the current page:
    it is pages 1 to 5 up to page 3, the current page with two neighbours on
    each side in the middle, and the last five pages from the third last
    page on. *)
Theorem getPageNumbers_slides (currentPage totalPages : Z) :
  5 <= totalPages ->
  (currentPage <= 3 -> getPageNumbers currentPage totalPages = [1; 2; 3; 4; 5])
  /\ (3 <= currentPage <= totalPages - 2 ->
      getPageNumbers currentPage totalPages
      = [currentPage - 2; currentPage - 1; currentPage; currentPage + 1; currentPage + 2])
  /\ (totalPages - 2 <= currentPage ->
      getPageNumbers currentPage totalPages
      = [totalPages - 4; totalPages - 3; totalPages - 2; totalPages - 1; totalPages]).
Proof.
  intros Ht. rewrite getPageNumbers_closed.
  replace (Z.min 5 totalPages) with 5 by lia.
  split_and!; intros Hc.
  - replace (Z.max 1 _) with 1 by lia. reflexivity.
  - replace (Z.max 1 _) with (currentPage - 2) by lia.
    rewrite seqZ_five. repeat (apply (f_equal2 cons); [lia |]). done.
  - replace (Z.max 1 _) with (totalPages - 4) by lia.
    rewrite seqZ_five. repeat (apply (f_equal2 cons); [lia |]). done.
Qed.

Lemma getPageNumbers_slides_witness :
  getPageNumbers 2 9 = [1; 2; 3; 4; 5]
  /\ getPageNumbers 6 9 = [4; 5; 6; 7; 8]
  /\ getPageNumbers 8 9 = [5; 6; 7; 8; 9].
Proof.
  destruct (getPageNumbers_slides 2 9 ltac:(lia)) as (H1 & _ & _).
  split_and!; [apply H1; lia | reflexivity | reflexivity].
Defined.

(** X3. On a page within range every enabled button of the pager, clicked,
    calls [onPageChange] exactly once, with its own page, which lies in
    [1 .. totalPages]; and a button is disabled only when its page is the
    current one or lies outside that range. *)
Theorem buttons_enabled_in_range (currentPage totalPages : Z) :
  1 <= currentPage <= totalPages ->
  Forall (fun b =>
            (disabled b = false ->
             click totalPages b = [target b] /\ 1 <= target b <= totalPages)
            /\ (disabled b = true ->
                click totalPages b = []
                /\ (target b = currentPage \/ ~ (1 <= target b <= totalPages))))
         (buttons currentPage totalPages).
Proof.
  intros Hc.
  assert (forall b, 1 <= target b <= totalPages -> disabled b = false ->
                    click totalPages b = [target b]) as Hclick.
  { intros b Hb Hd. unfold click, handlePageChange. rewrite Hd.
    destruct (Z.leb_spec 1 (target b)), (Z.leb_spec (target b) totalPages);
      simpl; try reflexivity; lia. }
  assert (forall b, disabled b = true -> click totalPages b = []) as Hoff.
  { intros b Hd. unfold click. by rewrite Hd. }
  unfold buttons. rewrite !Forall_app. split_and!.
  - constructor; [| constructor; [| constructor]]; simpl;
      (destruct (Z.eqb_spec currentPage 1); split; intros Hd; try discriminate Hd;
       [ split; [by apply Hoff | lia]
       | split; [apply Hclick; [simpl; lia | done] | lia] ]).
  - apply Forall_map, Forall_forall. intros page Hpage. simpl.
    assert (1 <= page <= totalPages) as Hin.
    { rewrite getPageNumbers_closed, elem_of_seqZ in Hpage. lia. }
    split; [intros _; split; [by apply Hclick | done] | discriminate].
  - constructor; [| constructor; [| constructor]]; simpl;
      (destruct (Z.eqb_spec currentPage totalPages); split; intros Hd; try discriminate Hd;
       [ split; [by apply Hoff | lia]
       | split; [apply Hclick; [simpl; lia | done] | lia] ]).
Qed.

Lemma buttons_enabled_in_range_witness :
  Forall (fun b =>
            (disabled b = false -> click 9 b = [target b] /\ 1 <= target b <= 9)
            /\ (disabled b = true ->
                click 9 b = [] /\ (target b = 9 \/ ~ (1 <= target b <= 9))))
         (buttons 9 9).
Proof. apply (buttons_enabled_in_range 9 9). lia. Defined.

End Pagination.

(** ** components/TransactionsTable.tsx *)
Module TransactionsTable.
Import Pagination.

(** [limit]. *)
Definition limit : Z := 10.

(** [Math.ceil(total / limit)] for an integer [total]: the ceiling of the
    exact quotient. *)
Definition totalPages (total : Z) : Z := - ((- total) / limit).

(** [totalPages > 1]: the condition under which the pager is rendered
    under a table that has rows. *)
Definition showsPagination (total : Z) : bool := 1 <? totalPages total.

(** [setPage] as [onPageChange]: the page after the calls made. *)
Definition setPage (page : Z) (calls : list Z) : Z :=
  foldl (fun _ requested => requested) page calls.

(** A click on the [i]-th button of the pager rendered for [page] (no
    button when the pager is not rendered or has fewer buttons). *)
Definition clickButton (total : Z) (page : Z) (i : nat) : Z :=
  if showsPagination total
  then match buttons page (totalPages total) !! i with
       | Some b => setPage page (click (totalPages total) b)
       | None => page
       end
  else page.

(** The page after a sequence of clicks, from [useState(1)]. *)
Definition pageAfter (total : Z) (clicks : list nat) : Z :=
  foldl (clickButton total) 1 clicks.

Example pageAfter_next_next_prev : pageAfter 35 [6; 6; 1]%nat = 2.
Proof. reflexivity. Qed.

Example pageAfter_last_next : pageAfter 35 [7; 6]%nat = 4.
Proof. reflexivity. Qed.

Lemma totalPages_spec (total : Z) :
  (totalPages total - 1) * 10 < total <= totalPages total * 10.
Proof. unfold totalPages, limit. Z.div_mod_to_equations. lia. Qed.

(** A click leaves the page within range. *)
Lemma clickButton_in_range (total page : Z) (i : nat) :
  1 <= page <= totalPages total ->
  1 <= clickButton total page i <= totalPages total.
Proof.
  intros Hp. unfold clickButton.
  destruct (showsPagination total); [| done].
  destruct (buttons page (totalPages total) !! i) as [b |] eqn:Hb; [| done].
  unfold click. destruct (disabled b); [done |].
  unfold handlePageChange.
  destruct (Z.leb_spec 1 (target b)), (Z.leb_spec (target b) (totalPages total));
    simpl; lia.
Qed.

(** X4. The pager's condition [totalPages > 1] holds exactly when there
    are more than ten transactions; and on every page within range the
    text "Showing a to b of total" has 1 <= a <= b <= total, spans at most
    ten results, and exactly ten on every page but the last. *)
Theorem showing_range_valid (total page : Z) :
  1 <= page <= totalPages total ->
  (showsPagination total = true <-> 10 < total)
  /\ 1 <= showingFrom page
  /\ showingFrom page <= showingTo page total
  /\ showingTo page total <= total
  /\ showingTo page total - showingFrom page + 1 <= 10
  /\ (page < totalPages total -> showingTo page total - showingFrom page + 1 = 10).
Proof.
  intros Hp. pose proof (totalPages_spec total) as Ht.
  unfold showsPagination, showingFrom, showingTo.
  split_and!; lia.
Qed.

Lemma showing_range_valid_witness :
  showingFrom 4 = 31 /\ showingTo 4 35 = 35 /\ showsPagination 35 = true.
Proof.
  destruct (showing_range_valid 35 4 ltac:(vm_compute; split; discriminate))
    as (Hshown & _).
  split_and!; [reflexivity | reflexivity | apply Hshown; lia].
Defined.

(** X5. From page 1, whatever buttons of the pager are clicked and in
    whatever order, the page stays within [1 .. totalPages]. *)
Theorem page_stays_in_range (total : Z) (clicks : list nat) :
  1 <= total ->
  1 <= pageAfter total clicks <= totalPages total.
Proof.
  intros Ht. unfold pageAfter.
  induction clicks as [| i clicks IH] using rev_ind.
  - simpl. pose proof (totalPages_spec total). lia.
  - rewrite foldl_app. simpl. by apply clickButton_in_range.
Qed.

Lemma page_stays_in_range_witness :
  1 <= pageAfter 35 [7; 6; 6; 0; 1; 1]%nat <= totalPages 35.
Proof. apply (page_stays_in_range 35). lia. Defined.

End TransactionsTable.

(** ** JavaScript values at the JSON boundary *)
Module Js.

(** A field typed [number | null | undefined]: the metrics of the fund
    pages.  A number is the exact value of a finite double (JSON carries
    neither NaN nor infinities). *)
Inductive nullable_number : Type :=
  | Undefined
  | Null
  | Num (x : Q).

(** A field typed [any], as the chat metrics are: [JsObject s] stands for
    an object or array whose [String(value)] is [s]. *)
Inductive JsValue : Type :=
  | JsUndefined
  | JsNull
  | JsBool (b : bool)
  | JsNumber (x : Q)
  | JsString (s : string)
  | JsObject (shown : string).

(** [value === null || value === undefined]. *)
Definition nullish (v : JsValue) : bool :=
  match v with
  | JsUndefined | JsNull => true
  | _ => false
  end.

(** ToBoolean of a [number | null | undefined]: a number is falsy when it
    is zero. *)
Definition truthy_number (v : nullable_number) : bool :=
  match v with
  | Num x => negb (Qeq_bool x 0)
  | _ => false
  end.

(** [haystack.startsWith(needle)]. *)
Fixpoint startsWith (needle haystack : string) : bool :=
  match needle, haystack with
  | EmptyString, _ => true
  | String a n, String b h => Ascii.eqb a b && startsWith n h
  | String _ _, EmptyString => false
  end.

(** [haystack.includes(needle)]: some suffix of [haystack] starts with
    [needle] (case-sensitive). *)
Fixpoint includes (needle haystack : string) : bool :=
  startsWith needle haystack
  || match haystack with
     | EmptyString => false
     | String _ h => includes needle h
     end.

Example includes_irr : includes "irr" "net_irr" = true.
Proof. reflexivity. Qed.

Example includes_case : includes "irr" "IRR" = false.
Proof. reflexivity. Qed.

End Js.

(** ** app/compare/page.tsx *)
Module Compare.
Import Js.

(** The second argument of [formatMetric]; [TNumber] is the default. *)
Inductive metric_type : Type := TCurrency | TPercentage | TNumber.

Section WithUtils.

(** [formatCurrency] of lib/utils, [Number.prototype.toFixed], and the
    double product [value * 100]: their results depend on floating-point
    rounding and locale formatting, so they are taken as given. *)
Variable formatCurrency : Q -> string.
Variable toFixed : Q -> nat -> string.
Variable times100 : Q -> Q.

(** [formatMetric]. *)
Definition formatMetric (value : nullable_number) (type : metric_type) : string :=
  match value with
  | Undefined | Null => "N/A"
  | Num x =>
      match type with
      | TCurrency => formatCurrency x
      | TPercentage => toFixed (times100 x) 2 ++ "%"
      | TNumber => toFixed x 2
      end
  end.

End WithUtils.

(** [toggleFund]: the updater passed to [setSelectedFundIds]. *)
Definition toggleFund (fundId : Z) (prev : list Z) : list Z :=
  if bool_decide (fundId ∈ prev)
  then filter (fun id => id ≠ fundId) prev
  else if (length prev <? 10)%nat
       then prev ++ [fundId]
       else prev.

(** The state after a sequence of clicks, from [useState<number[]>([])]. *)
Definition selectedAfter (clicks : list Z) : list Z :=
  foldl (fun prev fundId => toggleFund fundId prev) [] clicks.

(** [enabled: selectedFundIds.length >= 2]. *)
Definition compareEnabled (selectedFundIds : list Z) : bool :=
  (2 <=? length selectedFundIds)%nat.

(** The request of the comparison [useQuery]: [fundApi.compare] is called
    with the selection when the query is enabled, and not at all when it is
    disabled. *)
Definition compareRequest (selectedFundIds : list Z) : option (list Z) :=
  if compareEnabled selectedFundIds then Some selectedFundIds else None.

Example toggle_add : selectedAfter [3; 5; 8] = [3; 5; 8].
Proof. reflexivity. Qed.

Example toggle_remove : selectedAfter [3; 5; 8; 5] = [3; 8].
Proof. reflexivity. Qed.

Example toggle_full :
  selectedAfter [1; 2; 3; 4; 5; 6; 7; 8; 9; 10; 11] = [1; 2; 3; 4; 5; 6; 7; 8; 9; 10].
Proof. reflexivity. Qed.

(** One toggle keeps a duplicate-free selection of at most ten ids. *)
Lemma toggleFund_invariant (fundId : Z) (prev : list Z) :
  NoDup prev -> (length prev <= 10)%nat ->
  NoDup (toggleFund fundId prev) /\ (length (toggleFund fundId prev) <= 10)%nat.
Proof.
  intros Hnd Hlen. unfold toggleFund.
  case_bool_decide as Hin.
  - split; [by apply NoDup_filter |].
    etrans; [apply length_filter | done].
  - destruct (Nat.ltb_spec (length prev) 10) as [Hlt | Hge].
    + split.
      * apply NoDup_app. split_and!; [done | | apply NoDup_singleton].
        intros x Hx ->%list_elem_of_singleton. by apply Hin.
      * rewrite length_app. simpl. lia.
    + done.
Qed.

Lemma selectedAfter_snoc (clicks : list Z) (fundId : Z) :
  selectedAfter (clicks ++ [fundId]) = toggleFund fundId (selectedAfter clicks).
Proof. unfold selectedAfter. by rewrite foldl_app. Qed.

Lemma selectedAfter_invariant (clicks : list Z) :
  NoDup (selectedAfter clicks) /\ (length (selectedAfter clicks) <= 10)%nat.
Proof.
  induction clicks as [| fundId clicks IH] using rev_ind.
  - split; [apply NoDup_nil_2 | simpl; lia].
  - rewrite selectedAfter_snoc. destruct IH. by apply toggleFund_invariant.
Qed.

Lemma toggleFund_selected (fundId : Z) (prev : list Z) :
  fundId ∈ prev ->
  toggleFund fundId prev = filter (fun id => id ≠ fundId) prev
  /\ fundId ∉ toggleFund fundId prev.
Proof.
  intros Hin. unfold toggleFund. rewrite bool_decide_eq_true_2 by done.
  split; [done |]. rewrite list_elem_of_filter. tauto.
Qed.

Lemma toggleFund_full (fundId : Z) (prev : list Z) :
  fundId ∉ prev -> length prev = 10%nat -> toggleFund fundId prev = prev.
Proof.
  intros Hin Hlen. unfold toggleFund. rewrite bool_decide_eq_false_2 by done.
  by rewrite Hlen.
Qed.

Lemma toggleFund_new (fundId : Z) (prev : list Z) :
  fundId ∉ prev -> (length prev < 10)%nat -> toggleFund fundId prev = prev ++ [fundId].
Proof.
  intros Hin Hlen. unfold toggleFund. rewrite bool_decide_eq_false_2 by done.
  destruct (Nat.ltb_spec (length prev) 10); [done | lia].
Qed.

(** C9. After any sequence of [toggleFund] calls from the empty selection
    the list has no duplicate id and at most ten ids; toggling a selected
    id removes it, toggling a new id at length ten changes nothing; and the
    comparison request is issued only when at least two funds are
    selected. *)
Theorem toggleFund_selection_invariant (clicks : list Z) :
  let selected := selectedAfter clicks in
  NoDup selected
  /\ (length selected <= 10)%nat
  /\ (forall fundId, fundId ∈ selected ->
        toggleFund fundId selected = filter (fun id => id ≠ fundId) selected
        /\ fundId ∉ toggleFund fundId selected)
  /\ (forall fundId, fundId ∉ selected -> length selected = 10%nat ->
        toggleFund fundId selected = selected)
  /\ (compareRequest selected <> None -> (2 <= length selected)%nat)
  /\ (compareEnabled selected = true <-> (2 <= length selected)%nat).
Proof.
  intros selected. destruct (selectedAfter_invariant clicks) as [Hnd Hlen].
  split_and!; try done.
  - intros fundId. apply toggleFund_selected.
  - intros fundId. apply toggleFund_full.
  - unfold compareRequest, compareEnabled.
    destruct (Nat.leb_spec 2 (length selected)); [done | by intros []].
  - unfold compareEnabled. apply Nat.leb_le.
Qed.

(** *** Toggling twice, and where the selected ids come from *)

Lemma filter_other_id (fundId : Z) (prev : list Z) :
  fundId ∉ prev -> filter (fun id => id ≠ fundId) prev = prev.
Proof.
  induction prev as [| x prev IH]; [done |].
  intros [Hx Hin]%not_elem_of_cons.
  rewrite filter_cons_True by done. by rewrite IH.
Qed.

(** Deselecting a fund and selecting it again moves it to the end. *)
Lemma toggleFund_twice_selected (fundId : Z) (prev : list Z) :
  fundId ∈ prev -> (length prev <= 10)%nat ->
  toggleFund fundId (toggleFund fundId prev)
  = filter (fun id => id ≠ fundId) prev ++ [fundId].
Proof.
  intros Hin Hlen.
  destruct (toggleFund_selected fundId prev Hin) as [-> Hout].
  apply toggleFund_new.
  - rewrite list_elem_of_filter. tauto.
  - pose proof (length_filter_lt (fun id => id ≠ fundId) prev fundId Hin) as Hlt.
    specialize (Hlt ltac:(tauto)). lia.
Qed.

(** Selecting a fund and deselecting it again restores the list. *)
Lemma toggleFund_twice_new (fundId : Z) (prev : list Z) :
  fundId ∉ prev -> toggleFund fundId (toggleFund fundId prev) = prev.
Proof.
  intros Hin.
  destruct (Nat.lt_ge_cases (length prev) 10) as [Hlt | Hge].
  - rewrite (toggleFund_new fundId prev Hin Hlt).
    unfold toggleFund. rewrite bool_decide_eq_true_2 by set_solver.
    rewrite filter_app, filter_other_id by done.
    rewrite filter_cons_False by tauto. by rewrite app_nil_r.
  - assert (toggleFund fundId prev = prev) as Hsame.
    { unfold toggleFund. rewrite bool_decide_eq_false_2 by done.
      destruct (Nat.ltb_spec (length prev) 10); [lia | done]. }
    by rewrite !Hsame.
Qed.

(** X6. Clicking the same fund twice in a row leaves the same set of
    selected funds: the list is unchanged when the fund was not selected,
    and when it was selected it moves to the end of the list. *)
Theorem toggleFund_twice (clicks : list Z) (fundId : Z) :
  let selected := selectedAfter clicks in
  let again := selectedAfter (clicks ++ [fundId; fundId]) in
  again ≡ₚ selected
  /\ (fundId ∉ selected -> again = selected)
  /\ (fundId ∈ selected -> again = filter (fun id => id ≠ fundId) selected ++ [fundId]).
Proof.
  intros selected again.
  assert (again = toggleFund fundId (toggleFund fundId selected)) as Hagain.
  { unfold again, selected, selectedAfter. by rewrite foldl_app. }
  destruct (selectedAfter_invariant clicks) as [Hnd Hlen]. fold selected in Hnd, Hlen.
  assert (fundId ∉ selected -> again = selected) as Hnew.
  { intros Hin. rewrite Hagain. by apply toggleFund_twice_new. }
  assert (fundId ∈ selected ->
          again = filter (fun id => id ≠ fundId) selected ++ [fundId]) as Hold.
  { intros Hin. rewrite Hagain. by apply toggleFund_twice_selected. }
  split_and!; [| done | done].
  destruct (decide (fundId ∈ selected)) as [Hin | Hin].
  - rewrite (Hold Hin). apply NoDup_Permutation; [| done |].
    + apply NoDup_app. split_and!; [by apply NoDup_filter | | apply NoDup_singleton].
      intros x [Hx _]%list_elem_of_filter ->%list_elem_of_singleton. done.
    + intros x. rewrite elem_of_app, list_elem_of_filter, list_elem_of_singleton.
      destruct (decide (x = fundId)) as [-> |]; naive_solver.
  - by rewrite (Hnew Hin).
Qed.

(** X7. Only funds that were clicked are ever selected, and a fund clicked
    once and never again stays selected when the list had room for it. *)
Theorem selected_were_clicked (clicks : list Z) :
  (forall fundId, fundId ∈ selectedAfter clicks -> fundId ∈ clicks)
  /\ (forall fundId later,
        fundId ∉ selectedAfter clicks ->
        (length (selectedAfter clicks) < 10)%nat ->
        fundId ∉ later ->
        fundId ∈ selectedAfter (clicks ++ fundId :: later)).
Proof.
  split.
  - induction clicks as [| c clicks IH] using rev_ind; [done |].
    intros fundId. rewrite selectedAfter_snoc. unfold toggleFund.
    case_bool_decide.
    + intros [_ Hin]%list_elem_of_filter. set_solver.
    + destruct (length (selectedAfter clicks) <? 10)%nat; set_solver.
  - intros fundId later Hout Hroom Hlater.
    assert (fundId ∈ selectedAfter (clicks ++ [fundId])) as Hin.
    { rewrite selectedAfter_snoc, toggleFund_new by done. set_solver. }
    change (fundId :: later) with ([fundId] ++ later). rewrite app_assoc.
    revert Hin. generalize (clicks ++ [fundId]). intros before Hin.
    induction later as [| c later IH] using rev_ind.
    + by rewrite app_nil_r.
    + rewrite app_assoc, selectedAfter_snoc.
      apply not_elem_of_app in Hlater as [Hlater Hc].
      specialize (IH Hlater). unfold toggleFund.
      case_bool_decide.
      * rewrite list_elem_of_filter. set_solver.
      * destruct (length _ <? 10)%nat; set_solver.
Qed.

End Compare.

(** ** app/funds/[id]/page.tsx *)
Module FundDetail.
Import Js.

(** The fields of [fund.metrics] that the page reads. *)
Record Metrics : Type := {
  dpi : nullable_number;
  irr : nullable_number;
  pic : nullable_number;
  total_distributions : nullable_number
}.

(** [{}]: every field reads as [undefined]. *)
Definition emptyMetrics : Metrics :=
  {| dpi := Undefined; irr := Undefined; pic := Undefined;
     total_distributions := Undefined |}.

(** [fund.metrics || {}]. *)
Definition metricsOf (fund_metrics : option Metrics) : Metrics :=
  match fund_metrics with
  | Some m => m
  | None => emptyMetrics
  end.

(** The props of a [MetricCard] that reach the screen as text. *)
Record MetricCard : Type := {
  title : string;
  value : string;
  description : string
}.

(** [a + 'x'] where [a] is a string or [undefined] ([None]): ToString of
    [undefined] is ["undefined"]. *)
Definition plusString (a : option string) (b : string) : string :=
  match a with
  | Some s => s ++ b
  | None => "undefined" ++ b
  end.

(** [a || b] on strings: the empty string is the only falsy one. *)
Definition orString (a b : string) : string :=
  if String.eqb a "" then b else a.

Section WithUtils.

(** [formatCurrency] and [formatPercentage] of lib/utils and
    [Number.prototype.toFixed], taken as given. *)
Variable formatCurrency : Q -> string.
Variable formatPercentage : Q -> string.
Variable toFixed : Q -> nat -> string.

(** [v?.toFixed(2)]: [undefined] ([None]) when [v] is null or undefined. *)
Definition optToFixed2 (v : nullable_number) : option string :=
  match v with
  | Num x => Some (toFixed x 2)
  | Undefined | Null => None
  end.

(** [metrics.dpi?.toFixed(2) + 'x' || 'N/A']: [+] binds tighter than [||]. *)
Definition dpiValue (metrics : Metrics) : string :=
  orString (plusString (optToFixed2 (dpi metrics)) "x") "N/A".

(** [v ? format(v) : 'N/A']. *)
Definition ifTruthy (format : Q -> string) (v : nullable_number) : string :=
  match v with
  | Num x => if truthy_number v then format x else "N/A"
  | Undefined | Null => "N/A"
  end.

(** The four metric cards of [FundDetailPage], in order. *)
Definition FundDetailPage (fund_metrics : option Metrics) : list MetricCard :=
  let metrics := metricsOf fund_metrics in
  [ {| title := "DPI"; value := dpiValue metrics;
       description := "Distribution to Paid-In" |};
    {| title := "IRR"; value := ifTruthy formatPercentage (irr metrics);
       description := "Internal Rate of Return" |};
    {| title := "Paid-In Capital"; value := ifTruthy formatCurrency (pic metrics);
       description := "Total capital called" |};
    {| title := "Distributions";
       value := ifTruthy formatCurrency (total_distributions metrics);
       description := "Total distributions" |} ].

(** The IRR, Paid-In Capital and Distributions cards show "N/A" for a null
    metric. *)
Lemma ifTruthy_null (format : Q -> string) : ifTruthy format Null = "N/A".
Proof. reflexivity. Qed.

(** The left operand of [||] on the DPI card is never empty, so the
    fallback is never taken. *)
Lemma dpiValue_never_fallback (metrics : Metrics) :
  dpiValue metrics = plusString (optToFixed2 (dpi metrics)) "x".
Proof.
  unfold dpiValue, orString.
  destruct (optToFixed2 (dpi metrics)) as [s |]; simpl; [| done].
  destruct (String.eqb_spec (s ++ "x") "") as [He | Hne]; [| done].
  destruct s; discriminate He.
Qed.

End WithUtils.

(** A fund all of whose metrics are null. *)
Definition nullMetrics : Metrics :=
  {| dpi := Null; irr := Null; pic := Null; total_distributions := Null |}.

(** C1, at the fund detail page: with every metric null the IRR, Paid-In
    Capital and Distributions cards show "N/A", and the DPI card shows
    "undefinedx". *)
Theorem FundDetailPage_null_metrics
  (formatCurrency formatPercentage : Q -> string) (toFixed : Q -> nat -> string) :
  map value (FundDetailPage formatCurrency formatPercentage toFixed (Some nullMetrics))
  = ["undefinedx"; "N/A"; "N/A"; "N/A"].
Proof. reflexivity. Qed.

(** On the compare page [formatMetric] returns "N/A" for null and for
    undefined, whatever the type argument. *)
Lemma formatMetric_nullish
  (formatCurrency : Q -> string) (toFixed : Q -> nat -> string) (times100 : Q -> Q)
  (v : nullable_number) (type : Compare.metric_type) :
  v = Null \/ v = Undefined ->
  Compare.formatMetric formatCurrency toFixed times100 v type = "N/A".
Proof. by intros [-> | ->]. Qed.

(** *** The cards on numbers *)

Lemma append_x_not_na (s : string) : (s ++ "x")%string <> "N/A".
Proof.
  destruct s as [| a [| b [| c [| d s]]]]; simpl; discriminate.
Qed.

(** X8. The DPI card never shows "N/A": for a number it shows the number
    to two decimals followed by "x", and for null or undefined (also when
    the fund has no metrics object) it shows "undefinedx". *)
Theorem dpi_card_never_na
  (formatCurrency formatPercentage : Q -> string) (toFixed : Q -> nat -> string)
  (fund_metrics : option Metrics) :
  exists card rest,
    FundDetailPage formatCurrency formatPercentage toFixed fund_metrics = card :: rest
    /\ title card = "DPI"
    /\ value card <> "N/A"
    /\ value card
       = match dpi (metricsOf fund_metrics) with
         | Num x => (toFixed x 2%nat ++ "x")%string
         | Null | Undefined => "undefinedx"
         end.
Proof.
  eexists _, _. split; [reflexivity |]. simpl.
  rewrite dpiValue_never_fallback.
  split_and!.
  - done.
  - destruct (dpi (metricsOf fund_metrics)); simpl; [done | done |].
    apply append_x_not_na.
  - by destruct (dpi (metricsOf fund_metrics)).
Qed.

(** X9. The IRR, Paid-In Capital and Distributions cards show "N/A" for a
    metric that is 0 as they do for a missing one, and the formatted number
    for every other number. *)
Theorem zero_metric_shows_na
  (formatCurrency formatPercentage : Q -> string) (toFixed : Q -> nat -> string)
  (metrics : Metrics) :
  let values :=
    map value (FundDetailPage formatCurrency formatPercentage toFixed (Some metrics)) in
  let shown (format : Q -> string) (v : nullable_number) (text : string) :=
    match v with
    | Num x => (x == 0 -> text = "N/A") /\ (~ x == 0 -> text = format x)
    | Null | Undefined => text = "N/A"
    end in
  exists d i p t,
    values = [d; i; p; t]
    /\ shown formatPercentage (irr metrics) i
    /\ shown formatCurrency (pic metrics) p
    /\ shown formatCurrency (total_distributions metrics) t.
Proof.
  intros values shown.
  assert (forall format v, shown format v (ifTruthy format v)) as Hshown.
  { intros format [| | x]; simpl; try done.
    destruct (Qeq_bool x 0) eqn:Hx; simpl.
    - apply Qeq_bool_iff in Hx. split; [done | by intros []].
    - apply Qeq_bool_neq in Hx. split; [by intros ? | done]. }
  eexists _, _, _, _. split; [reflexivity |].
  split_and!; apply Hshown.
Qed.

End FundDetail.

(** ** app/chat/page.tsx *)
Module Chat.
Import Js.

Inductive Role : Type := User | Assistant.

(** An element of [sources]: the fields the bubble reads. *)
Record Source : Type := {
  source_content : string;
  source_score : nullable_number
}.

(** An object of type [any] holding metrics, as [Object.entries] lists it;
    [None] is [undefined] or [null]. *)
Definition MetricsObject : Type := option (list (string * JsValue)).

(** [interface Message]; an optional field that is absent is [None]. *)
Record Message : Type := {
  role : Role;
  content : string;
  sources : option (list Source);
  metrics : MetricsObject;
  timestamp : Z;
  noDocumentsFound : option bool
}.

(** The body of a resolved [chatApi.query]. *)
Record QueryResponse : Type := {
  answer : string;
  response_sources : option (list Source);
  response_metrics : MetricsObject;
  no_documents_found : option bool
}.

(** How the awaited [chatApi.query] ends: with a response, or with an error
    holding [error.response?.data?.detail] and [error.message]. *)
Inductive QueryOutcome : Type :=
  | Resolved (response : QueryResponse)
  | Rejected (detail : option string) (message : string).

(** What the environment supplies to one [handleSubmit]: the id returned by
    [chatApi.createConversation] ([None] when it throws), the outcome of the
    query, and the two values of [new Date()]. *)
Record Env : Type := {
  created : option string;
  outcome : QueryOutcome;
  sentAt : Z;
  repliedAt : Z
}.

(** The [useState] cells of [ChatPage] that [handleSubmit] reads or
    writes. *)
Record ChatState : Type := {
  messages : list Message;
  input : string;
  loading : bool;
  conversationId : option string;
  lastLoadedConversationId : option string
}.

(** The UTF-8 encodings of the characters [String.prototype.trim] removes
    (WhiteSpace and LineTerminator of ECMAScript). *)
Definition whitespace : list string :=
  map (fun bytes => string_of_list_ascii (map ascii_of_nat bytes))
    ([ [9]; [10]; [11]; [12]; [13]; [32]; [194; 160]; [225; 154; 128] ]
     ++ map (fun b => [226; 128; b]) [128; 129; 130; 131; 132; 133; 134; 135; 136; 137; 138]
     ++ [ [226; 128; 168]; [226; 128; 169]; [226; 128; 175]; [226; 129; 159];
          [227; 128; 128]; [239; 187; 191] ])%nat.

(** Removes one leading whitespace character, if there is one. *)
Definition dropWhitespace (s : string) : option string :=
  match List.find (fun w => startsWith w s) whitespace with
  | Some w => Some (string_of_list_ascii (drop (String.length w) (list_ascii_of_string s)))
  | None => None
  end.

Fixpoint isBlankFuel (fuel : nat) (s : string) : bool :=
  match s, fuel with
  | EmptyString, _ => true
  | _, O => false
  | _, S fuel' =>
      match dropWhitespace s with
      | Some rest => isBlankFuel fuel' rest
      | None => false
      end
  end.

(** [!input.trim()]: the input consists of whitespace only.  Each step
    removes at least one byte, so the length is enough fuel. *)
Definition isBlank (s : string) : bool := isBlankFuel (String.length s) s.

(** ToBoolean of a conversation id, a string or [undefined]/[null]. *)
Definition truthyId (id : option string) : bool :=
  match id with
  | Some s => negb (String.eqb s "")
  | None => false
  end.

(** [detail || message]. *)
Definition detailOr (detail : option string) (message : string) : string :=
  match detail with
  | Some d => if String.eqb d "" then message else d
  | None => message
  end.

Definition userMessage (text : string) (now : Z) : Message :=
  {| role := User; content := text; sources := None; metrics := None;
     timestamp := now; noDocumentsFound := None |}.

(** [assistantMessage] of [handleSubmit]. *)
Definition assistantMessage (response : QueryResponse) (now : Z) : Message :=
  {| role := Assistant;
     content := answer response;
     sources := response_sources response;
     metrics := response_metrics response;
     timestamp := now;
     noDocumentsFound := no_documents_found response |}.

(** [errorMessage] of [handleSubmit]. *)
Definition errorMessage (detail : option string) (message : string) (now : Z) : Message :=
  {| role := Assistant;
     content := ("Sorry, I encountered an error: " ++ detailOr detail message)%string;
     sources := None; metrics := None;
     timestamp := now; noDocumentsFound := None |}.

Definition setMessages (f : list Message -> list Message) (st : ChatState) : ChatState :=
  {| messages := f (messages st); input := input st; loading := loading st;
     conversationId := conversationId st;
     lastLoadedConversationId := lastLoadedConversationId st |}.

Definition setInput (s : string) (st : ChatState) : ChatState :=
  {| messages := messages st; input := s; loading := loading st;
     conversationId := conversationId st;
     lastLoadedConversationId := lastLoadedConversationId st |}.

Definition setLoading (b : bool) (st : ChatState) : ChatState :=
  {| messages := messages st; input := input st; loading := b;
     conversationId := conversationId st;
     lastLoadedConversationId := lastLoadedConversationId st |}.

(** [createNewConversation] when the API call succeeds with [newConvId]:
    both ids are set (so that the effect does not reload) and the messages
    are cleared. *)
Definition createdConversation (newConvId : string) (st : ChatState) : ChatState :=
  {| messages := []; input := input st; loading := loading st;
     conversationId := Some newConvId;
     lastLoadedConversationId := Some newConvId |}.

(** [handleSubmit], run to completion with no other event in between.  The
    closure reads [input], [loading] and [conversationId] of the render it
    was created in, that is of [st]. *)
Definition handleSubmit (st : ChatState) (env : Env) : ChatState :=
  let query (st1 : ChatState) : ChatState :=
    let st2 :=
      setLoading true
        (setInput ""
           (setMessages (fun prev => prev ++ [userMessage (input st) (sentAt env)]) st1)) in
    let st3 :=
      match outcome env with
      | Resolved response =>
          setMessages (fun prev => prev ++ [assistantMessage response (repliedAt env)]) st2
      | Rejected detail message =>
          setMessages (fun prev => prev ++ [errorMessage detail message (repliedAt env)]) st2
      end in
    setLoading false st3 in
  if isBlank (input st) || loading st then st
  else if truthyId (conversationId st) then query st
  else match created env with
       | None => st
       | Some newConvId =>
           let st1 := createdConversation newConvId st in
           if truthyId (Some newConvId) then query st1 else st1
       end.

(** An element of [conv.messages] as [loadConversation] reads it. *)
Record StoredMessage : Type := {
  stored_role : Role;
  stored_content : string;
  stored_timestamp : Z
}.

(** [formattedMessages] of [loadConversation]: only the role, the content
    and the timestamp are kept. *)
Definition formattedMessages (stored : list StoredMessage) : list Message :=
  map (fun msg =>
         {| role := stored_role msg; content := stored_content msg;
            sources := None; metrics := None;
            timestamp := stored_timestamp msg; noDocumentsFound := None |})
      stored.

(** *** MessageBubble *)

Record Banner : Type := {
  banner_title : string;
  banner_text : string
}.

(** The warning banner for no documents found. *)
Definition noDocumentsBanner : Banner :=
  {| banner_title := "No relevant documents found";
     banner_text := "The system couldn't find documents matching your query. The response below provides general guidance." |}.

Record MetricRow : Type := {
  row_key : string;
  row_value : string
}.

Record SourceItem : Type := {
  item_content : string;
  item_relevance : option string
}.

(** The text a rendered bubble shows. *)
Record Bubble : Type := {
  isUser : bool;
  banner : option Banner;
  text : string;
  metricsPanel : option (list MetricRow);
  sourcesPanel : option (string * list SourceItem);
  time : string
}.

Section WithUtils.

(** [formatCurrency] of lib/utils; [toFixed], [toUpperCase],
    [toLocaleTimeString], the double product [score * 100] and the string
    of a number and of a count are the JavaScript built-ins, taken as
    given. *)
Variable formatCurrency : Q -> string.
Variable toFixed : Q -> nat -> string.
Variable times100 : Q -> Q.
Variable toUpperCase : string -> string.
Variable toLocaleTimeString : Z -> string.
Variable numberToString : Q -> string.
Variable natToString : nat -> string.

(** [typeof value === 'number']. *)
Definition isNumber (v : JsValue) : bool :=
  match v with
  | JsNumber _ => true
  | _ => false
  end.

(** [String(value)]. *)
Definition toString (v : JsValue) : string :=
  match v with
  | JsUndefined => "undefined"
  | JsNull => "null"
  | JsBool true => "true"
  | JsBool false => "false"
  | JsNumber x => numberToString x
  | JsString s => s
  | JsObject shown => shown
  end.

(** The number a value is when [typeof value === 'number']. *)
Definition numberOf (v : JsValue) : Q :=
  match v with
  | JsNumber x => x
  | _ => 0
  end.

(** [displayValue] of the metrics panel. *)
Definition displayValue (key : string) (value : JsValue) : string :=
  if isNumber value && includes "irr" key
  then (toFixed (numberOf value) 2 ++ "%")%string
  else if isNumber value then formatCurrency (numberOf value)
  else toString value.

(** The callback mapped over [Object.entries(message.metrics)]: [None] is
    the [null] it returns, which React renders as nothing. *)
Definition metricEntry (entry : string * JsValue) : option MetricRow :=
  let '(key, value) := entry in
  if nullish value then None
  else Some {| row_key := toUpperCase key; row_value := displayValue key value |}.

(** The rows of the metrics panel that reach the screen. *)
Definition metricRows (entries : list (string * JsValue)) : list MetricRow :=
  omap metricEntry entries.

(** One of the first three sources.  [source.score && ...] renders the
    relevance line for a truthy score, the text "0" for the score 0, and
    nothing for a missing one. *)
Definition sourceItem (source : Source) : SourceItem :=
  {| item_content := source_content source;
     item_relevance :=
       match source_score source with
       | Num x =>
           if truthy_number (source_score source)
           then Some ("Relevance: " ++ toFixed (times100 x) 0 ++ "%")%string
           else Some "0"
       | _ => None
       end |}.

(** [MessageBubble]. *)
Definition MessageBubble (message : Message) : Bubble :=
  let isUser := match role message with User => true | Assistant => false end in
  {| isUser := isUser;
     banner :=
       if negb isUser && default false (noDocumentsFound message)
       then Some noDocumentsBanner else None;
     text := content message;
     metricsPanel :=
       match metrics message with
       | Some entries => Some (metricRows entries)
       | None => None
       end;
     sourcesPanel :=
       match sources message with
       | Some srcs =>
           if (0 <? length srcs)%nat
           then Some (("View Sources (" ++ natToString (length srcs) ++ ")")%string,
                      map sourceItem (take 3 srcs))
           else None
       | None => None
       end;
     time := toLocaleTimeString (timestamp message) |}.

(** [messages.map(...)] of [ChatPage]. *)
Definition renderMessages (st : ChatState) : list Bubble :=
  map MessageBubble (messages st).

(** A non-nullish entry gives exactly one row. *)
Lemma metricEntry_shown (key : string) (value : JsValue) :
  nullish value = false ->
  metricEntry (key, value)
  = Some {| row_key := toUpperCase key; row_value := displayValue key value |}.
Proof. intros Hv. unfold metricEntry. by rewrite Hv. Qed.

(** A null or undefined entry gives no row. *)
Lemma metricEntry_hidden (key : string) (value : JsValue) :
  nullish value = true -> metricEntry (key, value) = None.
Proof. intros Hv. unfold metricEntry. by rewrite Hv. Qed.

(** The rows are those of the non-nullish entries, in the order of the
    entries. *)
Lemma metricRows_filter (entries : list (string * JsValue)) :
  metricRows entries
  = map (fun entry => {| row_key := toUpperCase entry.1;
                         row_value := displayValue entry.1 entry.2 |})
        (filter (fun entry => nullish entry.2 = false) entries).
Proof.
  unfold metricRows.
  induction entries as [| [key value] entries IH]; [done |].
  rewrite filter_cons.
  change (omap metricEntry ((key, value) :: entries))
    with (match metricEntry (key, value) with
          | Some row => row :: omap metricEntry entries
          | None => omap metricEntry entries
          end).
  destruct (nullish value) eqn:Hv.
  - rewrite (metricEntry_hidden _ _ Hv). rewrite decide_False; [done |].
    simpl. by rewrite Hv.
  - rewrite (metricEntry_shown _ _ Hv). rewrite decide_True by done.
    simpl. by rewrite IH.
Qed.

Lemma displayValue_number (key : string) (x : Q) :
  displayValue key (JsNumber x)
  = if includes "irr" key then (toFixed x 2 ++ "%")%string else formatCurrency x.
Proof. unfold displayValue. simpl. by destruct (includes "irr" key). Qed.

(** What [handleSubmit] leaves in [messages] when the query is sent and
    resolves: the previous messages (none, after a conversation was
    created), the user's message, and the assistant's. *)
Lemma handleSubmit_resolved (st : ChatState) (env : Env) (response : QueryResponse) :
  isBlank (input st) = false ->
  loading st = false ->
  truthyId (conversationId st) = true \/ truthyId (created env) = true ->
  outcome env = Resolved response ->
  exists prev,
    messages (handleSubmit st env)
    = prev ++ [userMessage (input st) (sentAt env);
               assistantMessage response (repliedAt env)].
Proof.
  intros Hblank Hload Hconv Hout. unfold handleSubmit.
  rewrite Hblank, Hload, Hout. simpl.
  destruct (truthyId (conversationId st)) eqn:Hid.
  - exists (messages st). simpl. by rewrite <- app_assoc.
  - destruct Hconv as [Hc | Hc]; [done |].
    destruct (created env) as [newConvId |]; [| done].
    simpl in Hc |- *. rewrite Hc. by exists [].
Qed.

End WithUtils.

(** C10. The metrics panel of a message shows one row per entry of the
    metrics object whose value is neither null nor undefined, in order, and
    no row for a null or undefined entry; a numeric entry whose key
    contains "irr" is shown as [toFixed(2)] followed by "%", and every other
    numeric entry as [formatCurrency] gives it. *)
Theorem metrics_panel_rows
  (formatCurrency : Q -> string) (toFixed : Q -> nat -> string) (times100 : Q -> Q)
  (toUpperCase : string -> string) (toLocaleTimeString : Z -> string)
  (numberToString : Q -> string) (natToString : nat -> string)
  (message : Message) :
  let display := displayValue formatCurrency toFixed numberToString in
  let entry := metricEntry formatCurrency toFixed toUpperCase numberToString in
  metricsPanel (MessageBubble formatCurrency toFixed times100 toUpperCase
                  toLocaleTimeString numberToString natToString message)
  = (fun entries =>
       map (fun e => {| row_key := toUpperCase e.1; row_value := display e.1 e.2 |})
           (filter (fun e => nullish e.2 = false) entries)) <$> metrics message
  /\ (forall key, entry (key, JsNull) = None /\ entry (key, JsUndefined) = None)
  /\ (forall key x, includes "irr" key = true ->
        entry (key, JsNumber x)
        = Some {| row_key := toUpperCase key; row_value := (toFixed x 2%nat ++ "%")%string |})
  /\ (forall key x, includes "irr" key = false ->
        entry (key, JsNumber x)
        = Some {| row_key := toUpperCase key; row_value := formatCurrency x |}).
Proof.
  intros display entry. split_and!.
  - unfold MessageBubble. simpl.
    destruct (metrics message) as [entries |]; [| done].
    simpl. f_equal. apply metricRows_filter.
  - done.
  - intros key x Hk. unfold entry.
    rewrite metricEntry_shown by done. by rewrite displayValue_number, Hk.
  - intros key x Hk. unfold entry.
    rewrite metricEntry_shown by done. by rewrite displayValue_number, Hk.
Qed.

(** C2. When the query resolves with [no_documents_found] true, the last
    bubble the chat page renders is the assistant's, it carries the "No
    relevant documents found" banner above the answer, and its metrics
    panel holds only rows made from the entries of the response's own
    metrics (no panel when the response has none). *)
Theorem no_documents_flag_surfaced
  (formatCurrency : Q -> string) (toFixed : Q -> nat -> string) (times100 : Q -> Q)
  (toUpperCase : string -> string) (toLocaleTimeString : Z -> string)
  (numberToString : Q -> string) (natToString : nat -> string)
  (st : ChatState) (env : Env) (response : QueryResponse) :
  isBlank (input st) = false ->
  loading st = false ->
  truthyId (conversationId st) = true \/ truthyId (created env) = true ->
  outcome env = Resolved response ->
  no_documents_found response = Some true ->
  exists bubble,
    last (renderMessages formatCurrency toFixed times100 toUpperCase
            toLocaleTimeString numberToString natToString (handleSubmit st env))
    = Some bubble
    /\ isUser bubble = false
    /\ banner bubble = Some noDocumentsBanner
    /\ banner_title noDocumentsBanner = "No relevant documents found"
    /\ text bubble = answer response
    /\ metricsPanel bubble
       = metricRows formatCurrency toFixed toUpperCase numberToString
           <$> (response_metrics response : option (list (string * JsValue))).
Proof.
  intros Hblank Hload Hconv Hout Hflag.
  destruct (handleSubmit_resolved st env response Hblank Hload Hconv Hout) as [prev Hm].
  eexists. unfold renderMessages. rewrite Hm.
  rewrite map_app. simpl map.
  change [?a; ?b] with ([a] ++ [b]). rewrite app_assoc, last_snoc.
  split; [reflexivity |].
  split_and!; simpl; try done.
  by rewrite Hflag.
Qed.

(** A submit with no open conversation: one is created, the query resolves
    with the flag set and no metrics. *)
Definition flaggedResponse : QueryResponse :=
  {| answer := "Please specify which fund you are asking about.";
     response_sources := Some [];
     response_metrics := None;
     no_documents_found := Some true |}.

Definition freshState : ChatState :=
  {| messages := []; input := "What is the current DPI?"; loading := false;
     conversationId := None; lastLoadedConversationId := None |}.

Definition flaggedEnv : Env :=
  {| created := Some "abc-123"; outcome := Resolved flaggedResponse;
     sentAt := 1000; repliedAt := 2000 |}.

Lemma no_documents_flag_surfaced_witness :
  exists bubble,
    last (renderMessages (fun _ => "") (fun _ _ => "") (fun x => x) (fun s => s)
            (fun _ => "") (fun _ => "") (fun _ => "")
            (handleSubmit freshState flaggedEnv))
    = Some bubble
    /\ banner bubble = Some noDocumentsBanner.
Proof.
  destruct (no_documents_flag_surfaced (fun _ => "") (fun _ _ => "") (fun x => x)
              (fun s => s) (fun _ => "") (fun _ => "") (fun _ => "")
              freshState flaggedEnv flaggedResponse)
    as (bubble & Hlast & _ & Hbanner & _);
    [reflexivity | reflexivity | right; reflexivity | reflexivity | reflexivity |].
  exists bubble. by split.
Defined.

(** Messages restored by [loadConversation] carry no flag, so their bubbles
    show no banner. *)
Remark formattedMessages_no_banner
  (formatCurrency : Q -> string) (toFixed : Q -> nat -> string) (times100 : Q -> Q)
  (toUpperCase : string -> string) (toLocaleTimeString : Z -> string)
  (numberToString : Q -> string) (natToString : nat -> string)
  (stored : list StoredMessage) :
  Forall (fun m => banner (MessageBubble formatCurrency toFixed times100 toUpperCase
                             toLocaleTimeString numberToString natToString m) = None)
         (formattedMessages stored).
Proof.
  unfold formattedMessages. apply Forall_map, Forall_true.
  intros msg. simpl. by rewrite andb_false_r.
Qed.

Example isBlank_spaces : isBlank "  " = true.
Proof. reflexivity. Qed.

Example isBlank_question : isBlank " What is the current DPI?" = false.
Proof. reflexivity. Qed.

(** *** Selecting and loading a conversation *)





(** The condition of the effect on [conversationId]:
    [conversationId && conversationId !== lastLoadedConversationId]. *)
Definition mustLoad (st : ChatState) : bool :=
  truthyId (conversationId st)
  && bool_decide (conversationId st ≠ lastLoadedConversationId st).



(** The reply [handleSubmit] appends for an outcome. *)
Definition replyMessage (env : Env) : Message :=
  match outcome env with
  | Resolved response => assistantMessage response (repliedAt env)
  | Rejected detail message => errorMessage detail message (repliedAt env)
  end.

(** The state a sent query ends in. *)
Lemma handleSubmit_sent (st : ChatState) (env : Env) :
  isBlank (input st) = false ->
  loading st = false ->
  truthyId (conversationId st) = true \/ truthyId (created env) = true ->
  handleSubmit st env
  = {| messages := (if truthyId (conversationId st) then messages st else [])
                   ++ [userMessage (input st) (sentAt env); replyMessage env];
       input := "";
       loading := false;
       conversationId := if truthyId (conversationId st) then conversationId st
                         else created env;
       lastLoadedConversationId :=
         if truthyId (conversationId st) then lastLoadedConversationId st
         else created env |}.
Proof.
  intros Hblank Hload Hconv. unfold handleSubmit, replyMessage.
  rewrite Hblank, Hload. simpl.
  destruct (truthyId (conversationId st)) eqn:Hid.
  - destruct (outcome env); unfold setLoading, setInput, setMessages; simpl;
      by rewrite <- app_assoc.
  - destruct Hconv as [Hc | Hc]; [done |].
    destruct (created env) as [newConvId |]; [| done].
    simpl in Hc |- *. rewrite Hc. by destruct (outcome env).
Qed.

(** The segments of [handleSubmit] from the moment the query is sent.
    Each runs without interruption; between them the handler awaits, and
    other events may change the state. *)

(** Up to [await chatApi.query]: the user's message is appended, the input
    cleared, the spinner turned on. *)
Definition sendQuery (text : string) (now : Z) (st : ChatState) : ChatState :=
  setLoading true
    (setInput "" (setMessages (fun prev => prev ++ [userMessage text now]) st)).

(** When the query has ended: the reply is appended. *)
Definition appendReply (env : Env) (st : ChatState) : ChatState :=
  setMessages (fun prev => prev ++ [replyMessage env]) st.

(** [finally]: the spinner is turned off. *)
Definition finishSubmit (st : ChatState) : ChatState := setLoading false st.

(** The state in which a sent query starts: that of the submit, or the one
    [createNewConversation] leaves. *)
Definition submitBase (st : ChatState) (env : Env) : ChatState :=
  if truthyId (conversationId st) then st
  else match created env with
       | Some newConvId => createdConversation newConvId st
       | None => st
       end.

(** X10. Each append of [handleSubmit] adds exactly one message at the end
    of the messages there are at that moment, whatever these are, and keeps
    them in order: the user's text when the query is sent (with the input
    cleared and the spinner on), and one assistant message when the query
    has ended, which after a failed call is the apology with the error
    detail (or, without one, the error message) and carries neither flag
    nor metrics nor sources.  When no other event comes between these
    segments, [handleSubmit] is their composition, and a sent query ends
    with the spinner off, the input cleared, and two messages added after
    the earlier ones (none are kept when the conversation was just
    created). *)
Theorem handleSubmit_appends (env : Env) :
  (forall text now st,
     messages (sendQuery text now st) = messages st ++ [userMessage text now]
     /\ input (sendQuery text now st) = ""
     /\ loading (sendQuery text now st) = true
     /\ conversationId (sendQuery text now st) = conversationId st)
  /\ (forall st,
        exists reply,
          messages (appendReply env st) = messages st ++ [reply]
          /\ role reply = Assistant
          /\ input (appendReply env st) = input st
          /\ conversationId (appendReply env st) = conversationId st
          /\ match outcome env with
             | Resolved response => reply = assistantMessage response (repliedAt env)
             | Rejected detail message =>
                 content reply
                 = ("Sorry, I encountered an error: "
                    ++ match detail with
                       | Some d => if String.eqb d "" then message else d
                       | None => message
                       end)%string
                 /\ noDocumentsFound reply = None
                 /\ metrics reply = None
                 /\ sources reply = None
             end)
  /\ (forall st,
        loading (finishSubmit st) = false
        /\ messages (finishSubmit st) = messages st
        /\ input (finishSubmit st) = input st)
  /\ (forall st,
        isBlank (input st) = false ->
        loading st = false ->
        truthyId (conversationId st) = true \/ truthyId (created env) = true ->
        handleSubmit st env
        = finishSubmit
            (appendReply env (sendQuery (input st) (sentAt env) (submitBase st env)))
        /\ messages (handleSubmit st env)
           = (if truthyId (conversationId st) then messages st else [])
             ++ [userMessage (input st) (sentAt env); replyMessage env]
        /\ loading (handleSubmit st env) = false
        /\ input (handleSubmit st env) = "").
Proof.
  split_and!.
  - done.
  - intros st. exists (replyMessage env). unfold appendReply, replyMessage.
    by destruct (outcome env).
  - done.
  - intros st Hblank Hload Hconv.
    rewrite (handleSubmit_sent st env Hblank Hload Hconv).
    split_and!; try done.
    unfold finishSubmit, appendReply, sendQuery, submitBase,
      setLoading, setInput, setMessages. simpl.
    destruct (truthyId (conversationId st)) eqn:Hid.
    + by rewrite <- app_assoc.
    + destruct Hconv as [Hc | Hc]; [done |].
      by destruct (created env).
Qed.

(** A submit that is not sent changes nothing. *)
Lemma handleSubmit_unchanged (st : ChatState) (env : Env) :
  isBlank (input st) = true
  \/ loading st = true
  \/ (truthyId (conversationId st) = false /\ created env = None) ->
  handleSubmit st env = st.
Proof.
  unfold handleSubmit. intros [Hb | [Hl | [Hid Hc]]].
  - by rewrite Hb.
  - rewrite Hl. by rewrite orb_true_r.
  - rewrite Hid, Hc. by destruct (_ || _).
Qed.

(** X11. Nothing is sent and the state is left exactly as it was when the
    input is blank, when a query is already in flight, or when there is no
    conversation and creating one fails; in particular no message is added
    and the input is kept. *)
Theorem handleSubmit_blocked (st : ChatState) (env : Env) :
  isBlank (input st) = true
  \/ loading st = true
  \/ (truthyId (conversationId st) = false /\ created env = None) ->
  handleSubmit st env = st
  /\ messages (handleSubmit st env) = messages st
  /\ input (handleSubmit st env) = input st.
Proof. intros H. by rewrite (handleSubmit_unchanged st env H). Qed.

Lemma handleSubmit_blocked_witness :
  handleSubmit (setInput "   " freshState) flaggedEnv = setInput "   " freshState.
Proof.
  apply (handleSubmit_blocked (setInput "   " freshState) flaggedEnv).
  left. reflexivity.
Defined.

(** X12. Submitting never makes the conversation effect reload: when no
    load is due before [handleSubmit], none is due after it, also when it
    has just created the conversation. *)
Theorem handleSubmit_no_reload (st : ChatState) (env : Env) :
  mustLoad st = false -> mustLoad (handleSubmit st env) = false.
Proof.
  intros Hst.
  destruct (isBlank (input st)) eqn:Hblank;
    [by rewrite handleSubmit_unchanged by auto |].
  destruct (loading st) eqn:Hload;
    [by rewrite handleSubmit_unchanged by auto |].
  destruct (truthyId (conversationId st)) eqn:Hid.
  - rewrite handleSubmit_sent by auto. unfold mustLoad in *. simpl.
    rewrite !Hid. by rewrite Hid in Hst.
  - destruct (created env) as [newConvId |] eqn:Hc;
      [| by rewrite handleSubmit_unchanged by auto].
    destruct (truthyId (Some newConvId)) eqn:Hnew.
    + rewrite handleSubmit_sent by (rewrite ?Hc; auto).
      unfold mustLoad. simpl. rewrite Hid, Hc.
      by rewrite bool_decide_eq_false_2, andb_false_r by auto.
    + unfold handleSubmit. rewrite Hblank, Hload, Hid, Hc. simpl.
      simpl in Hnew. rewrite Hnew. unfold mustLoad. simpl. by rewrite Hnew.
Qed.

Lemma handleSubmit_no_reload_witness :
  mustLoad (handleSubmit freshState flaggedEnv) = false.
Proof. apply handleSubmit_no_reload. reflexivity. Defined.

(** *** What the bubbles of a session show *)

Section Rendered.

Variable formatCurrency : Q -> string.
Variable toFixed : Q -> nat -> string.
Variable times100 : Q -> Q.
Variable toUpperCase : string -> string.
Variable toLocaleTimeString : Z -> string.
Variable numberToString : Q -> string.
Variable natToString : nat -> string.

(** [MessageBubble] and the list of bubbles, with the helpers above. *)
Definition bubbleOf : Message -> Bubble :=
  MessageBubble formatCurrency toFixed times100 toUpperCase toLocaleTimeString
    numberToString natToString.



End Rendered.




(** X15. The sources of a message are listed only when there is at least
    one; the summary line counts them all but at most the first three are
    listed. *)
Theorem sources_first_three
  (formatCurrency : Q -> string) (toFixed : Q -> nat -> string) (times100 : Q -> Q)
  (toUpperCase : string -> string) (toLocaleTimeString : Z -> string)
  (numberToString : Q -> string) (natToString : nat -> string)
  (message : Message) :
  let panel := sourcesPanel (bubbleOf formatCurrency toFixed times100 toUpperCase
                               toLocaleTimeString numberToString natToString message) in
  match sources message with
  | None | Some [] => panel = None
  | Some srcs =>
      exists items,
        panel = Some (("View Sources (" ++ natToString (length srcs) ++ ")")%string, items)
        /\ length items = Nat.min 3 (length srcs)
        /\ map item_content items = map source_content (take 3 srcs)
  end.
Proof.
  intros panel. unfold panel, bubbleOf, MessageBubble. simpl.
  destruct (sources message) as [[| src srcs] |]; [done | | done].
  eexists. split; [reflexivity |].
  split.
  - rewrite length_map, length_take. done.
  - rewrite map_map. done.
Qed.

End Chat.

(** ** components/ConversationSidebar.tsx *)
Module ConversationSidebar.

(** A title as its UTF-16 code units, which [length] and [substring]
    count. *)
Definition Text : Type := list Z.

(** [interface Conversation]: the fields the sidebar reads. *)
Record Conversation : Type := {
  conversation_id : string;
  title : option Text;
  created_at : string;
  updated_at : string
}.

(** The code units [String.prototype.trim] removes (WhiteSpace and
    LineTerminator of ECMAScript, each a single unit). *)
Definition whiteSpaceUnits : list Z :=
  [9; 10; 11; 12; 13; 32; 160; 5760] ++ seqZ 8192 11
  ++ [8232; 8233; 8239; 8287; 12288; 65279].

Definition isWhiteSpace (u : Z) : bool := bool_decide (u ∈ whiteSpaceUnits).

(** [t.trim() !== '']: some unit of [t] is not white space. *)
Definition trimNonEmpty (t : Text) : bool := negb (forallb isWhiteSpace t).

(** "..." and "Chat ". *)
Definition ellipsis : Text := [46; 46; 46].
Definition chatPrefix : Text := [67; 104; 97; 116; 32].

Section WithFormatDate.

(** [formatDate] of lib/utils, taken as given. *)
Variable formatDate : string -> Text.

(** [getConversationTitle]. *)
Definition getConversationTitle (conv : Conversation) : Text :=
  match title conv with
  | Some t =>
      if negb (bool_decide (t = [])) && trimNonEmpty t
      then if (50 <? length t)%nat then take 50 t ++ ellipsis else t
      else chatPrefix ++ formatDate (created_at conv)
  | None => chatPrefix ++ formatDate (created_at conv)
  end.

End WithFormatDate.

(** What the sidebar asks of the outside. *)
Inductive Effect : Type :=
  | DeleteConversation (conversationId : string)
  | InvalidateConversations
  | CreateNewConversation.

(** The [deleteConfirmation] cell, and the calls to
    [chatApi.deleteConversation] that are awaited: each with the
    conversation it deletes and the [currentConversationId] prop of the
    render its click was made in. *)
Record SidebarState : Type := {
  deleteConfirmation : option string;
  inFlight : list (string * option string)
}.

(** [useState(null)], nothing awaited. *)
Definition initialState : SidebarState :=
  {| deleteConfirmation := None; inFlight := [] |}.

(** What happens to the sidebar: a click on the delete button of a
    conversation (with the [currentConversationId] prop at that click), the
    end of the [request]-th awaited deletion (which succeeds or throws), or
    a click on the button for a new conversation. *)
Inductive Event : Type :=
  | ClickDelete (conversationId : string) (currentConversationId : option string)
  | Settled (request : nat) (deleted : bool)
  | ClickNew.

(** [handleDeleteConversation] up to its [await]: a click on the button
    whose confirmation is pending calls the API and leaves the confirmation
    as it is; any other click sets the confirmation. *)
Definition handleDeleteConversation (st : SidebarState) (conversationId : string)
    (currentConversationId : option string) : SidebarState * list Effect :=
  if bool_decide (deleteConfirmation st = Some conversationId)
  then ({| deleteConfirmation := deleteConfirmation st;
           inFlight := inFlight st ++ [(conversationId, currentConversationId)] |},
        [DeleteConversation conversationId])
  else ({| deleteConfirmation := Some conversationId; inFlight := inFlight st |}, []).

(** [handleDeleteConversation] after its [await]: the list is invalidated
    and a deleted current conversation replaced when the call succeeded,
    and in [finally] the confirmation is cleared. *)
Definition deleteSettled (st : SidebarState) (request : nat) (deleted : bool)
    : SidebarState * list Effect :=
  match inFlight st !! request with
  | Some (conversationId, currentConversationId) =>
      ({| deleteConfirmation := None; inFlight := delete request (inFlight st) |},
       if deleted
       then InvalidateConversations
            :: (if bool_decide (currentConversationId = Some conversationId)
                then [CreateNewConversation] else [])
       else [])
  | None => (st, [])
  end.

(** [handleConfirmNewConversation]. *)
Definition handleConfirmNewConversation (st : SidebarState) : SidebarState * list Effect :=
  ({| deleteConfirmation := None; inFlight := inFlight st |}, [CreateNewConversation]).

Definition handle (st : SidebarState) (event : Event) : SidebarState * list Effect :=
  match event with
  | ClickDelete id current => handleDeleteConversation st id current
  | Settled request deleted => deleteSettled st request deleted
  | ClickNew => handleConfirmNewConversation st
  end.

(** The state after a sequence of events. *)
Definition stateAfter (events : list Event) : SidebarState :=
  foldl (fun st event => (handle st event).1) initialState events.

Example delete_on_second_click :
  (handle (stateAfter [ClickDelete "a" None]) (ClickDelete "a" None)).2
  = [DeleteConversation "a"]
  /\ (handle (stateAfter [ClickDelete "a" None]) (ClickDelete "b" None)).2 = [].
Proof. by split. Qed.

(** While the first deletion is awaited the confirmation is still set, and
    a further click asks for the deletion again. *)
Example delete_again_while_awaited :
  (handle (stateAfter [ClickDelete "a" None; ClickDelete "a" None])
     (ClickDelete "a" None)).2
  = [DeleteConversation "a"]
  /\ (handle (stateAfter [ClickDelete "a" None; ClickDelete "a" None; Settled 0 true])
        (ClickDelete "a" None)).2
     = [].
Proof. by split. Qed.

Lemma stateAfter_snoc (events : list Event) (event : Event) :
  stateAfter (events ++ [event]) = (handle (stateAfter events) event).1.
Proof. unfold stateAfter. by rewrite foldl_app. Qed.

(** An event that neither clears the confirmation on [id] nor moves it to
    another conversation. *)
Definition keepsConfirmation (id : string) (event : Event) : Prop :=
  match event with
  | ClickDelete id' _ => id' = id
  | Settled _ _ => True
  | ClickNew => False
  end.

(** A pending confirmation was set by a click on that conversation's
    delete button that asked for nothing, and was kept since. *)
Lemma confirmation_pending (events : list Event) (id : string) :
  deleteConfirmation (stateAfter events) = Some id ->
  exists earlier current rest,
    events = earlier ++ ClickDelete id current :: rest
    /\ (handle (stateAfter earlier) (ClickDelete id current)).2 = []
    /\ Forall (keepsConfirmation id) rest.
Proof.
  induction events as [| event events IH] using rev_ind; [done |].
  rewrite stateAfter_snoc.
  destruct event as [id' current | request deleted |]; simpl.
  - unfold handleDeleteConversation. case_bool_decide as Hpending; simpl.
    + intros Hid. rewrite Hid in Hpending. injection Hpending as ->.
      destruct (IH Hid) as (earlier & c & rest & -> & Hnone & Hrest).
      exists earlier, c, (rest ++ [ClickDelete id' current]).
      split_and!; [by rewrite <- app_assoc | done |].
      apply Forall_app. split; [done |]. by constructor.
    + intros [= ->]. exists events, current, []. split_and!; [done | | constructor].
      simpl. unfold handleDeleteConversation. by rewrite bool_decide_eq_false_2.
  - unfold deleteSettled.
    destruct (inFlight (stateAfter events) !! request) as [[? ?] |]; [done |].
    intros Hid. destruct (IH Hid) as (earlier & c & rest & -> & Hnone & Hrest).
    exists earlier, c, (rest ++ [Settled request deleted]).
    split_and!; [by rewrite <- app_assoc | done |].
    apply Forall_app. split; [done |]. by constructor.
  - done.
Qed.

(** X16. The sidebar calls [deleteConversation] for a conversation only
    from a click on that conversation's delete button made while its
    confirmation is pending: an earlier click on the same button, which
    called nothing, set the confirmation, and since then there was neither
    a click on another conversation's delete button nor one on the button
    for a new conversation.  So the first click on a delete button never
    deletes.  The confirmation is cleared only when an awaited deletion
    ends, whether it succeeded or not; until then every further click on
    the button calls [deleteConversation] again. *)
Theorem delete_needs_confirmation (events : list Event) (event : Event) (id : string) :
  DeleteConversation id ∈ (handle (stateAfter events) event).2 ->
  (exists current, event = ClickDelete id current)
  /\ deleteConfirmation (stateAfter events) = Some id
  /\ (exists earlier current rest,
        events = earlier ++ ClickDelete id current :: rest
        /\ (handle (stateAfter earlier) (ClickDelete id current)).2 = []
        /\ Forall (keepsConfirmation id) rest)
  /\ deleteConfirmation (stateAfter (events ++ [event])) = Some id
  /\ (forall request deleted,
        is_Some (inFlight (stateAfter (events ++ [event])) !! request) ->
        deleteConfirmation
          (stateAfter (events ++ [event; Settled request deleted])) = None).
Proof.
  intros Hcall.
  assert ((exists current, event = ClickDelete id current)
          /\ deleteConfirmation (stateAfter events) = Some id) as [[current ->] Hid].
  { destruct event as [id' current | request deleted |]; simpl in Hcall.
    - unfold handleDeleteConversation in Hcall.
      case_bool_decide as Hpending; simpl in Hcall.
      + apply list_elem_of_singleton in Hcall as [= ->]. split; [by eexists | done].
      + by apply elem_of_nil in Hcall.
    - unfold deleteSettled in Hcall.
      destruct (inFlight (stateAfter events) !! request) as [[? ?] |]; simpl in Hcall.
      + destruct deleted; [| by apply elem_of_nil in Hcall].
        apply elem_of_cons in Hcall as [[=] | Hcall].
        case_bool_decide; [| by apply elem_of_nil in Hcall].
        by apply list_elem_of_singleton in Hcall.
      + by apply elem_of_nil in Hcall.
    - by apply list_elem_of_singleton in Hcall. }
  assert (deleteConfirmation (stateAfter (events ++ [ClickDelete id current])) = Some id)
    as Hafter.
  { rewrite stateAfter_snoc. simpl. unfold handleDeleteConversation.
    by rewrite bool_decide_eq_true_2. }
  split_and!; [by eexists | done | by apply confirmation_pending | done |].
  intros request deleted [[id' current'] Hrequest].
  change [ClickDelete id current; Settled request deleted]
    with ([ClickDelete id current] ++ [Settled request deleted]).
  rewrite app_assoc, stateAfter_snoc. simpl. unfold deleteSettled.
  by rewrite Hrequest.
Qed.

Lemma delete_needs_confirmation_witness :
  deleteConfirmation
    (stateAfter [ClickDelete "b" None; ClickDelete "a" (Some "a")]) = Some "a"
  /\ deleteConfirmation
       (stateAfter [ClickDelete "b" None; ClickDelete "a" (Some "a");
                    ClickDelete "a" (Some "a"); Settled 0 false]) = None.
Proof.
  destruct (delete_needs_confirmation
              [ClickDelete "b" None; ClickDelete "a" (Some "a")]
              (ClickDelete "a" (Some "a")) "a")
    as (_ & Hpending & _ & _ & Hcleared).
  { vm_compute. left. }
  split; [exact Hpending |].
  apply (Hcleared 0%nat false). vm_compute. by eexists.
Defined.

(** X17. The title shown for a conversation is never empty.  A stored
    title with a character that is not white space is shown as it is up to
    50 code units, and as its first 50 units followed by "..." beyond that
    (53 units); a missing, empty or all-white-space title gives "Chat "
    followed by the creation date. *)
Theorem conversation_title (formatDate : string -> Text) (conv : Conversation) :
  let shown := getConversationTitle formatDate conv in
  shown <> []
  /\ match title conv with
     | Some t =>
         (Exists (fun u => isWhiteSpace u = false) t ->
          ((length t <= 50)%nat -> shown = t)
          /\ ((50 < length t)%nat ->
              shown = take 50 t ++ ellipsis /\ length shown = 53%nat)
          /\ (length shown <= 53)%nat)
         /\ (Forall (fun u => isWhiteSpace u = true) t ->
             shown = chatPrefix ++ formatDate (created_at conv))
     | None => shown = chatPrefix ++ formatDate (created_at conv)
     end.
Proof.
  intros shown. unfold shown, getConversationTitle.
  assert (forall t, trimNonEmpty t = true <-> Exists (fun u => isWhiteSpace u = false) t)
    as Htrim.
  { intros t. unfold trimNonEmpty. rewrite negb_true_iff.
    induction t as [| u t IH]; simpl.
    - split; [done | by intros ?%Exists_nil].
    - rewrite Exists_cons, andb_false_iff, IH. done. }
  destruct (title conv) as [t |]; [| done].
  destruct (trimNonEmpty t) eqn:Ht.
  - assert (t <> []) as Hne.
    { intros ->. discriminate Ht. }
    rewrite bool_decide_eq_false_2 by done. simpl.
    assert (length (take 50 t ++ ellipsis) = 53%nat \/ (length t <= 50)%nat) as Hlen.
    { destruct (Nat.le_gt_cases (length t) 50); [by right | left].
      rewrite length_app, length_take. change (length ellipsis) with 3%nat. lia. }
    destruct (Nat.ltb_spec 50 (length t)) as [Hlong | Hshort].
    + split; [by destruct (take 50 t) eqn:E |].
      split.
      * intros _. destruct Hlen as [Hlen | Hlen]; [| lia].
        split_and!; [lia | done | lia].
      * intros Hall. exfalso.
        apply Htrim in Ht. apply Exists_exists in Ht as (u & Hu & Hw).
        rewrite Forall_forall in Hall. specialize (Hall u Hu). congruence.
    + split; [done |].
      split.
      * intros _. split_and!; [done | lia | lia].
      * intros Hall. exfalso.
        apply Htrim in Ht. apply Exists_exists in Ht as (u & Hu & Hw).
        rewrite Forall_forall in Hall. specialize (Hall u Hu). congruence.
  - rewrite andb_false_r. split; [done |].
    split; [| done].
    intros Hex%Htrim. congruence.
Qed.

End ConversationSidebar.

(** ** components/SearchInterface.tsx *)
Module SearchInterface.

Section WithResults.

(** [SearchResult] of lib/api. *)
Variable SearchResult : Type.

(** The [useState] cells that [handleSearch] reads or writes. *)
Record SearchState : Type := {
  query : string;
  results : list SearchResult;
  loading : bool;
  error : option string;
  hasSearched : bool;
  processingTime : option Q;
  backendUsed : option string
}.

(** The body of a resolved [searchApi.search]. *)
Record SearchResponse : Type := {
  response_results : list SearchResult;
  processing_time : option Q;
  backend_used : string
}.

(** How the awaited search ends: with a response, or with an error
    holding [err.response?.data?.detail]. *)
Inductive SearchOutcome : Type :=
  | Found (response : SearchResponse)
  | Failed (detail : option string).

(** The initial state of the component. *)
Definition initialState : SearchState :=
  {| query := ""; results := []; loading := false; error := None;
     hasSearched := false; processingTime := None; backendUsed := None |}.

(** [a || b] where [a] is a string or undefined. *)
Definition orElse (a : option string) (b : string) : string :=
  match a with
  | Some s => if String.eqb s "" then b else s
  | None => b
  end.

(** [x || null] on a number or undefined. *)
Definition orNull (x : option Q) : option Q :=
  match x with
  | Some q => if Qeq_bool q 0 then None else Some q
  | None => None
  end.

(** [setQuery], from the input's [onChange]. *)
Definition setQuery (text : string) (st : SearchState) : SearchState :=
  {| query := text; results := results st; loading := loading st;
     error := error st; hasSearched := hasSearched st;
     processingTime := processingTime st; backendUsed := backendUsed st |}.

(** [handleSearch] on a blank query: only the error is set. *)
Definition rejectBlank (st : SearchState) : SearchState :=
  {| query := query st; results := results st; loading := loading st;
     error := Some "Please enter a search query"; hasSearched := hasSearched st;
     processingTime := processingTime st; backendUsed := backendUsed st |}.

(** The state rendered while the search is awaited. *)
Definition searching (st : SearchState) : SearchState :=
  {| query := query st; results := results st; loading := true;
     error := None; hasSearched := true;
     processingTime := processingTime st; backendUsed := backendUsed st |}.

(** The state once the awaited search has ended. *)
Definition searched (outcome : SearchOutcome) (st : SearchState) : SearchState :=
  match outcome with
  | Found response =>
      {| query := query st; results := response_results response; loading := false;
         error := match response_results response with
                  | [] => Some "No results found. Try a different search term."
                  | _ :: _ => error st
                  end;
         hasSearched := hasSearched st;
         processingTime := orNull (processing_time response);
         backendUsed := Some (backend_used response) |}
  | Failed detail =>
      {| query := query st; results := []; loading := false;
         error := Some (orElse detail "Search failed. Please try again.");
         hasSearched := hasSearched st;
         processingTime := processingTime st; backendUsed := backendUsed st |}
  end.

(** [handleSearch], run to its end. *)
Definition handleSearch (outcome : SearchOutcome) (st : SearchState) : SearchState :=
  if Chat.isBlank (query st) then rejectBlank st
  else searched outcome (searching st).

(** [{error && ...}]: the error box is rendered for a non-empty string. *)
Definition errorShown (st : SearchState) : bool :=
  match error st with
  | Some s => negb (String.eqb s "")
  | None => false
  end.

(** [{results.length > 0 && ...}]. *)
Definition resultsShown (st : SearchState) : bool :=
  match results st with
  | [] => false
  | _ :: _ => true
  end.

(** The "No results found" empty state:
    [!loading && !error && results.length === 0 && hasSearched]. *)
Definition emptyStateShown (st : SearchState) : bool :=
  negb (loading st) && negb (errorShown st) && negb (resultsShown st) && hasSearched st.

(** What the user does: type in the input, or submit the form, with the
    way the search then ends. *)
Inductive Event : Type :=
  | Typed (text : string)
  | Submitted (outcome : SearchOutcome).

(** The states rendered from [st] on, in order: one for a typed text or a
    blank submit, two for a search (while it is awaited, and after). *)
Fixpoint rendered (st : SearchState) (events : list Event) : list SearchState :=
  match events with
  | [] => []
  | Typed text :: rest => setQuery text st :: rendered (setQuery text st) rest
  | Submitted outcome :: rest =>
      if Chat.isBlank (query st)
      then rejectBlank st :: rendered (rejectBlank st) rest
      else searching st :: handleSearch outcome st
           :: rendered (handleSearch outcome st) rest
  end.

Lemma orElse_not_empty (a : option string) (b : string) :
  b <> "" -> String.eqb (orElse a b) "" = false.
Proof.
  intros Hb. unfold orElse. destruct a as [s |].
  - destruct (String.eqb s "") eqn:E; [| done]. by apply String.eqb_neq.
  - by apply String.eqb_neq.
Qed.

(** Once a search has been made, no shown results and no spinner mean the
    error box is shown. *)
Definition accounted (st : SearchState) : Prop :=
  hasSearched st = true -> loading st = false -> resultsShown st = false ->
  errorShown st = true.

Lemma accounted_no_empty_state (st : SearchState) :
  accounted st -> emptyStateShown st = false.
Proof.
  unfold accounted, emptyStateShown. intros Hacc.
  destruct (loading st); [done |].
  destruct (resultsShown st); [by rewrite andb_false_r |].
  destruct (hasSearched st); [| by rewrite andb_false_r].
  by rewrite Hacc.
Qed.

Lemma handleSearch_accounted (outcome : SearchOutcome) (st : SearchState) :
  Chat.isBlank (query st) = false -> accounted (handleSearch outcome st).
Proof.
  intros Hq. unfold handleSearch, accounted, errorShown, resultsShown.
  rewrite Hq. destruct outcome as [response | detail]; simpl.
  - by destruct (response_results response).
  - intros _ _ _. by rewrite orElse_not_empty.
Qed.

Lemma rendered_accounted (st : SearchState) (events : list Event) :
  accounted st -> Forall accounted (rendered st events).
Proof.
  revert st. induction events as [| [text | outcome] events IH]; intros st Hst; simpl.
  - constructor.
  - constructor; [done | by apply IH].
  - destruct (Chat.isBlank (query st)) eqn:Hq.
    + assert (accounted (rejectBlank st)) as Hr by (by intros _ _ _).
      constructor; [done | by apply IH].
    + pose proof (handleSearch_accounted outcome st Hq) as Hs.
      constructor; [by intros _ ? | constructor; [done | by apply IH]].
Qed.

(** X18. After a search with a non-blank query has ended, the spinner is
    off and exactly one of the results list and the error box is shown:
    the results when there are some, the error box after a failure or when
    nothing was found.  A blank query searches nothing: it shows the error
    box and leaves the earlier results in place. *)
Theorem search_results_or_error (outcome : SearchOutcome) (st : SearchState) :
  let st' := handleSearch outcome st in
  (Chat.isBlank (query st) = false ->
   loading st' = false
   /\ hasSearched st' = true
   /\ errorShown st' = negb (resultsShown st')
   /\ match outcome with
      | Found response => results st' = response_results response
      | Failed detail => results st' = []
      end)
  /\ (Chat.isBlank (query st) = true ->
      errorShown st' = true
      /\ results st' = results st
      /\ hasSearched st' = hasSearched st
      /\ loading st' = loading st).
Proof.
  intros st'. unfold st', handleSearch. split; intros Hq; rewrite Hq.
  - destruct outcome as [response | detail]; unfold errorShown, resultsShown; simpl.
    + by destruct (response_results response).
    + by rewrite orElse_not_empty.
  - done.
Qed.

(** X19. The "No results found" empty state is never rendered: from the
    initial state, whatever is typed and submitted and however the searches
    end, in no state along the way (while a search is awaited or after) are
    all of its conditions met. *)
Theorem empty_state_never_shown (events : list Event) :
  Forall (fun st => emptyStateShown st = false) (rendered initialState events).
Proof.
  eapply Forall_impl; [apply rendered_accounted | apply accounted_no_empty_state].
  by intros ?.
Qed.

End WithResults.

End SearchInterface.

(** ** components/FundChart.tsx *)
Module FundChart.

(** The [type] prop. *)
Inductive ChartType : Type := line | bar | area | composed.

(** A series element of a chart, with its data key and the colour props
    the palette gives it ([None] is [undefined]). *)
Inductive Series : Type :=
  | Line (dataKey : string) (stroke : option string)
  | Bar (dataKey : string) (fill : option string)
  | Area (dataKey : string) (fill stroke : option string).

(** What [renderChart] gives: a chart with its series, or the
    ReferenceError of a name that is not bound. *)
Inductive Rendered : Type :=
  | Chart (kind : ChartType) (series : list Series)
  | ReferenceError (name : string).

(** The default of the [colors] prop. *)
Definition defaultColors : list string :=
  ["#3b82f6"; "#10b981"; "#ef4444"; "#f59e0b"; "#8b5cf6"].

(** [colors[index % colors.length]]: with an empty palette the index is
    NaN and the element [undefined]. *)
Definition colorAt (colors : list string) (index : nat) : option string :=
  match colors with
  | [] => None
  | _ :: _ => colors !! (index mod length colors)%nat
  end.

(** [renderChart].  The area branch builds an [AreaChart] element, a name
    the file does not import (it imports [Area] only), so evaluating it
    raises. *)
Definition renderChart (type : ChartType) (yKeys : list string) (colors : list string)
    : Rendered :=
  match type with
  | line => Chart line (imap (fun index yKey => Line yKey (colorAt colors index)) yKeys)
  | bar => Chart bar (imap (fun index yKey => Bar yKey (colorAt colors index)) yKeys)
  | area => ReferenceError "AreaChart"
  | composed =>
      Chart composed
        (imap (fun index yKey =>
                 if bool_decide (index = 0%nat)
                 then Line yKey (colorAt colors index)
                 else Bar yKey (colorAt colors index))
              yKeys)
  end.

(** [FundChart]: the props with their defaults. *)
Definition FundChart (type : option ChartType) (yKeys : list string)
    (colors : option (list string)) : Rendered :=
  renderChart (default line type) yKeys (default defaultColors colors).

Definition dataKeyOf (s : Series) : string :=
  match s with
  | Line k _ | Bar k _ | Area k _ _ => k
  end.

(** The colour a series is drawn in. *)
Definition colorOf (s : Series) : option string :=
  match s with
  | Line _ c | Bar _ c | Area _ c _ => c
  end.

Definition isLine (s : Series) : bool :=
  match s with
  | Line _ _ => true
  | _ => false
  end.

Example fund_detail_composed :
  FundChart (Some composed) ["cumulative_paid_in"; "cumulative_distributed"]
    (Some ["#3b82f6"; "#10b981"; "#ef4444"])
  = Chart composed [Line "cumulative_paid_in" (Some "#3b82f6");
                    Bar "cumulative_distributed" (Some "#10b981")].
Proof. reflexivity. Qed.

Example area_is_unbound : FundChart (Some area) ["nav"] None = ReferenceError "AreaChart".
Proof. reflexivity. Qed.

Lemma colorAt_defined (colors : list string) (index : nat) :
  colors <> [] ->
  exists c, colorAt colors index = Some c /\ c ∈ colors
            /\ colorAt colors (index + length colors) = Some c.
Proof.
  intros Hne. unfold colorAt. destruct colors as [| c0 colors]; [done |].
  set (palette := c0 :: colors) in *.
  assert (length palette <> 0)%nat as Hlen by (subst palette; simpl; lia).
  destruct (lookup_lt_is_Some_2 palette (index mod length palette)) as [c Hc].
  { by apply Nat.mod_upper_bound. }
  exists c. split_and!; [done | by eapply list_elem_of_lookup_2 |].
  replace (index + length palette)%nat with (index + 1 * length palette)%nat by lia.
  by rewrite Nat.Div0.mod_add.
Qed.

Lemma dataKeyOf_imap (f : nat -> string -> Series) (keys : list string) :
  (forall i k, dataKeyOf (f i k) = k) -> map dataKeyOf (imap f keys) = keys.
Proof.
  revert f. induction keys as [| k keys IH]; intros f Hf; [done |].
  rewrite imap_cons. simpl. rewrite Hf. f_equal. apply IH. intros i k'. apply Hf.
Qed.

(** X20. A line, bar or composed chart has one series per y key, in the
    order of the keys and with that key as its data key: lines in a line
    chart, bars in a bar chart, and in a composed chart a line for the
    first key and a bar for every other key.  The series at an index is
    drawn in the palette's colour at that index modulo the palette's
    length, so with a palette that is not empty every series has a colour
    of the palette and the colours repeat with its length. *)
Theorem one_series_per_key (type : ChartType) (yKeys colors : list string) :
  type <> area ->
  exists series,
    renderChart type yKeys colors = Chart type series
    /\ length series = length yKeys
    /\ map dataKeyOf series = yKeys
    /\ (forall index yKey, yKeys !! index = Some yKey ->
          (type = line ->
           series !! index = Some (Line yKey (colorAt colors index)))
          /\ (type = bar ->
              series !! index = Some (Bar yKey (colorAt colors index)))
          /\ (type = composed ->
              series !! index
              = Some (if bool_decide (index = 0%nat)
                      then Line yKey (colorAt colors index)
                      else Bar yKey (colorAt colors index))))
    /\ (colors <> [] ->
        forall index,
          exists c, colorAt colors index = Some c /\ c ∈ colors
                    /\ colorAt colors (index + length colors) = Some c).
Proof.
  intros Htype.
  destruct type; [| | done |]; simpl; eexists; (split; [reflexivity |]);
    (split; [apply length_imap |]);
    (split; [apply dataKeyOf_imap; intros i k; by try case_bool_decide |]);
    (split; [| intros Hne index; by apply colorAt_defined]);
    intros index yKey Hkey; rewrite list_lookup_imap, Hkey; simpl;
    split_and!; intros Ht; by try discriminate Ht.
Qed.

Lemma one_series_per_key_witness :
  exists series,
    renderChart composed ["cumulative_paid_in"; "cumulative_distributed"]
      ["#3b82f6"; "#10b981"; "#ef4444"]
    = Chart composed series
    /\ series !! 1%nat = Some (Bar "cumulative_distributed" (Some "#10b981")).
Proof.
  destruct (one_series_per_key composed
              ["cumulative_paid_in"; "cumulative_distributed"]
              ["#3b82f6"; "#10b981"; "#ef4444"])
    as (series & Hr & _ & _ & Hs & _); [discriminate |].
  exists series. split; [exact Hr |].
  destruct (Hs 1%nat "cumulative_distributed" eq_refl) as (_ & _ & Hcomposed).
  exact (Hcomposed eq_refl).
Defined.

End FundChart.

(** ** The metrics engine (back end)

    The Python metrics engine is not among the sources; its definitions
    below follow section 4.3 of the specification, over exact rationals. *)
Module MetricsEngine.

Local Open Scope Q_scope.

(** Modelled from the spec: the transaction models of the back end, which
    are missing; the records of section 3.  Dates are day numbers. *)
Inductive Transaction : Type :=
  | capital_call (amount : Q) (call_date : Z) (call_type : string)
  | distribution (amount : Q) (distribution_date : Z) (distribution_type : string)
      (is_recallable : bool)
  | adjustment (amount : Q) (effective_date : Z) (adjustment_type : string).

Definition date_of (t : Transaction) : Z :=
  match t with
  | capital_call _ d _ => d
  | distribution _ d _ _ => d
  | adjustment _ d _ => d
  end.

Definition call_amount (t : Transaction) : option Q :=
  match t with capital_call a _ _ => Some a | _ => None end.

Definition distribution_amount (t : Transaction) : option Q :=
  match t with distribution a _ _ _ => Some a | _ => None end.

Definition adjustment_amount (t : Transaction) : option Q :=
  match t with adjustment a _ _ => Some a | _ => None end.

Definition sum (amounts : list Q) : Q := fold_right Qplus 0 amounts.

(** Modelled from the spec: the missing metrics engine;
    the transaction set "as of a given as-of date
    (default: latest)". *)
Definition as_of_set (txs : list Transaction) (as_of : option Z) : list Transaction :=
  match as_of with
  | Some d => filter (fun t => (date_of t <= d)%Z) txs
  | None => txs
  end.

Definition total_calls (txs : list Transaction) : Q := sum (omap call_amount txs).

Definition total_adjustments (txs : list Transaction) : Q :=
  sum (omap adjustment_amount txs).

(** Modelled from the spec: the missing metrics engine;
    "PIC = sum(capital_call.amount) +
    sum(adjustment.amount)". *)
Definition pic_of (txs : list Transaction) : Q :=
  total_calls txs + total_adjustments txs.

(** Modelled from the spec: the missing metrics engine;
    "distributed_capital =
    sum(distribution.amount)". *)
Definition distributed_capital_of (txs : list Transaction) : Q :=
  sum (omap distribution_amount txs).

(** Modelled from the spec: the missing metrics engine;
    NAV is externally supplied; "if no NAV source
    exists, NAV defaults to 0". *)
Definition nav_of (nav_source : option Q) : Q :=
  match nav_source with
  | Some v => v
  | None => 0
  end.

(** Modelled from the spec: the missing metrics engine;
    "DPI = distributed_capital / PIC; undefined
    (returns null) when PIC = 0". *)
Definition dpi_of (distributed pic : Q) : option Q :=
  if Qeq_bool pic 0 then None else Some (distributed / pic).

(** Modelled from the spec: the missing metrics engine;
    "RVPI = NAV / PIC; returns 0 when NAV = 0
    (fully distributed fund), not null".  Where NAV is not 0 and PIC is 0
    the quotient is undefined and the field is null (a computation null
    of section 7, which never raises). *)
Definition rvpi_of (nav pic : Q) : option Q :=
  if Qeq_bool nav 0 then Some 0
  else if Qeq_bool pic 0 then None
  else Some (nav / pic).

(** Modelled from the spec: the missing metrics engine;
    "TVPI = DPI + RVPI; null when PIC = 0". *)
Definition tvpi_of (dpi rvpi : option Q) : option Q :=
  match dpi, rvpi with
  | Some d, Some r => Some (d + r)
  | _, _ => None
  end.

(** Modelled from the spec: the missing metrics engine;
    "MOIC = (distributed_capital + NAV) / PIC",
    null when PIC = 0 (section 8). *)
Definition moic_of (distributed nav pic : Q) : option Q :=
  if Qeq_bool pic 0 then None else Some ((distributed + nav) / pic).

(** A signed cash flow and its date. *)
Definition CashFlow : Type := (Q * Z)%type.

(** Modelled from the spec: the missing metrics engine;
    the series "(-call amount, call_date),
    (+distribution amount, distribution_date), (+NAV, as-of-date as a
    terminal synthetic inflow)". *)
Definition flow_of (t : Transaction) : option CashFlow :=
  match t with
  | capital_call a d _ => Some (- a, d)
  | distribution a d _ _ => Some (a, d)
  | adjustment _ _ _ => None
  end.

Definition latest (txs : list Transaction) : Z :=
  fold_right (fun t d => Z.max (date_of t) d) 0%Z txs.

Definition cash_flows (txs : list Transaction) (nav : Q) (as_of : option Z) : list CashFlow :=
  omap flow_of txs ++ [(nav, default (latest txs) as_of)].

Definition is_negative (cf : CashFlow) : bool := negb (Qle_bool 0 cf.1).
Definition is_positive (cf : CashFlow) : bool := negb (Qle_bool cf.1 0).

(** Modelled from the spec: the missing metrics engine;
    the metrics snapshot of [get_metrics], "every
    field independently nullable". *)
Record Snapshot : Type := {
  pic : option Q;
  distributed_capital : option Q;
  nav : option Q;
  dpi : option Q;
  rvpi : option Q;
  tvpi : option Q;
  moic : option Q;
  irr : option Q
}.

(** [o] holds a number equal to [q]. *)
Definition holds (o : option Q) (q : Q) : Prop :=
  match o with
  | Some x => x == q
  | None => False
  end.

Section Numerics.

(** The power function of the floating-point library ([pow x y] is x to
    the y), the iteration cap and the tolerance ("e.g., 100", "e.g.,
    1e-6"), and the root-finder ("e.g., Newton-Raphson with bisection
    fallback"): its state, the state it starts from, the rate a state
    proposes, and one iteration on a function. *)
Variable pow : Q -> Q -> Q.
Variable max_iterations : nat.
Variable tolerance : Q.
Variable Estimate : Type.
Variable start : Estimate.
Variable rate : Estimate -> Q.
Variable refine : (Q -> Q) -> Estimate -> Estimate.

(** Modelled from the spec: the missing metrics engine;
    "NPV(r) = sum of CF_i / (1+r)^(days_i/365)",
    the days counted from the first flow of the series. *)
Definition npv (cfs : list CashFlow) (r : Q) : Q :=
  let first := match cfs with cf :: _ => cf.2 | [] => 0%Z end in
  sum (map (fun cf : CashFlow =>
              cf.1 / pow (1 + r) (inject_Z (cf.2 - first) / 365)) cfs).

(** The tolerance test on NPV. *)
Definition converged (f : Q -> Q) (e : Estimate) : bool :=
  negb (Qle_bool tolerance (Qabs (f (rate e)))).

(** Modelled from the spec: the missing metrics engine;
    the iteration, "fixed iteration cap ... with
    a tolerance ...; non-convergence returns null rather than raising". *)
Fixpoint solve (iterations : nat) (f : Q -> Q) (e : Estimate) : option Q :=
  match iterations with
  | O => None
  | S n => if converged f e then Some (rate e) else solve n f (refine f e)
  end.

(** Modelled from the spec: the missing metrics engine;
    the IRR routine, "Requires at least one
    negative and one positive cash flow; otherwise returns null". *)
Definition irr_of (cfs : list CashFlow) : option Q :=
  if existsb is_negative cfs && existsb is_positive cfs
  then solve max_iterations (npv cfs) start
  else None.

(** Modelled from the spec: the missing metrics engine;
    [get_metrics(fund_id, as_of?)] on the fund's
    transactions and NAV source. *)
Definition get_metrics (txs : list Transaction) (nav_source : option Q)
    (as_of : option Z) : Snapshot :=
  let set := as_of_set txs as_of in
  let p := pic_of set in
  let d := distributed_capital_of set in
  let n := nav_of nav_source in
  {| pic := Some p;
     distributed_capital := Some d;
     nav := Some n;
     dpi := dpi_of d p;
     rvpi := rvpi_of n p;
     tvpi := tvpi_of (dpi_of d p) (rvpi_of n p);
     moic := moic_of d n p;
     irr := irr_of (cash_flows set n as_of) |}.

(** *** The ratios *)

Lemma Qeq_bool_false (x y : Q) : ~ x == y -> Qeq_bool x y = false.
Proof.
  intros Hne. destruct (Qeq_bool x y) eqn:E; [| done].
  by apply Qeq_bool_iff in E.
Qed.

Lemma Qdiv_zero_inv (n p : Q) : ~ p == 0 -> n / p == 0 -> n == 0.
Proof.
  intros Hp Hq. rewrite <- (Qmult_div_r n p) by done.
  rewrite Hq. ring.
Qed.

(** With no paid-in capital the three multiples over PIC are null. *)
Lemma ratios_null (d n p : Q) :
  p == 0 ->
  dpi_of d p = None /\ tvpi_of (dpi_of d p) (rvpi_of n p) = None
  /\ moic_of d n p = None.
Proof.
  intros Hp%Qeq_bool_iff. unfold dpi_of, moic_of. by rewrite Hp.
Qed.

Lemma rvpi_zero_iff (n p : Q) : holds (rvpi_of n p) 0 <-> n == 0.
Proof.
  unfold rvpi_of.
  destruct (Qeq_bool n 0) eqn:Hn.
  - apply Qeq_bool_iff in Hn. simpl. split; [done | reflexivity].
  - apply Qeq_bool_neq in Hn.
    destruct (Qeq_bool p 0) eqn:Hp; simpl.
    + split; [done | by intros ?].
    + apply Qeq_bool_neq in Hp. split; [| by intros ?].
      by apply Qdiv_zero_inv.
Qed.

(** With paid-in capital every ratio is defined. *)
Lemma ratios_defined (d n p : Q) :
  ~ p == 0 ->
  dpi_of d p = Some (d / p)
  /\ holds (rvpi_of n p) (n / p)
  /\ moic_of d n p = Some ((d + n) / p)
  /\ exists r, rvpi_of n p = Some r /\ r == n / p
               /\ tvpi_of (dpi_of d p) (rvpi_of n p) = Some (d / p + r).
Proof.
  intros Hp. unfold dpi_of, moic_of, rvpi_of.
  rewrite (Qeq_bool_false p 0 Hp).
  destruct (Qeq_bool n 0) eqn:Hn.
  - apply Qeq_bool_iff in Hn.
    assert (0 == n / p) as Hz by (rewrite Hn; by field).
    split_and!.
    + done.
    + simpl. done.
    + done.
    + by exists 0.
  - split_and!.
    + done.
    + simpl. reflexivity.
    + done.
    + exists (n / p). split_and!; [done | reflexivity | done].
Qed.

(** Without capital a fund with a NAV has no RVPI. *)
Lemma rvpi_null (n p : Q) : ~ n == 0 -> p == 0 -> rvpi_of n p = None.
Proof.
  intros Hn Hp%Qeq_bool_iff. unfold rvpi_of.
  by rewrite (Qeq_bool_false n 0 Hn), Hp.
Qed.

(** C3, as amended. When the computed PIC is 0, [get_metrics] returns null
    for dpi, tvpi and moic; rvpi is the number 0 (not null) exactly when
    NAV is 0; when NAV is not 0, rvpi is NAV / PIC if PIC is not 0, and
    null if PIC is 0. *)
Theorem ratios_without_capital (txs : list Transaction) (nav_source : option Q)
    (as_of : option Z) :
  let m := get_metrics txs nav_source as_of in
  (holds (pic m) 0 -> dpi m = None /\ tvpi m = None /\ moic m = None)
  /\ (holds (rvpi m) 0 <-> holds (nav m) 0)
  /\ (forall p n, pic m = Some p -> nav m = Some n -> ~ n == 0 ->
        (~ p == 0 -> holds (rvpi m) (n / p))
        /\ (p == 0 -> rvpi m = None)).
Proof.
  intros m. split_and!.
  - simpl. apply ratios_null.
  - simpl. apply rvpi_zero_iff.
  - simpl. intros p n [= <-] [= <-] Hn. split; intros Hp.
    + by apply ratios_defined.
    + by apply rvpi_null.
Qed.

(** C4. When PIC is not 0, the snapshot has TVPI = DPI + RVPI =
    (distributed_capital + NAV) / PIC, and MOIC is the same number. *)
Theorem tvpi_is_dpi_plus_rvpi (txs : list Transaction) (nav_source : option Q)
    (as_of : option Z) :
  let m := get_metrics txs nav_source as_of in
  let set := as_of_set txs as_of in
  ~ pic_of set == 0 ->
  exists d r t k,
    dpi m = Some d /\ rvpi m = Some r /\ tvpi m = Some t /\ moic m = Some k
    /\ t == d + r
    /\ t == (distributed_capital_of set + nav_of nav_source) / pic_of set
    /\ k == t.
Proof.
  intros m set Hp.
  destruct (ratios_defined (distributed_capital_of set) (nav_of nav_source)
              (pic_of set) Hp) as (Hd & _ & Hk & r & Hr & Hrv & Ht).
  exists (distributed_capital_of set / pic_of set), r,
    (distributed_capital_of set / pic_of set + r),
    ((distributed_capital_of set + nav_of nav_source) / pic_of set).
  split_and!; [done | done | done | done | reflexivity | |];
    rewrite Hrv; by field.
Qed.

(** C6. Capital calls totalling 100,000,000 (and no net adjustment),
    distributions totalling 40,000,000 and a NAV of 120,000,000 give
    DPI = 0.40, RVPI = 1.20, TVPI = 1.60 and MOIC = 1.60. *)
Theorem velocity_ventures_metrics (txs : list Transaction) (nav_source : option Q)
    (as_of : option Z) :
  let m := get_metrics txs nav_source as_of in
  let set := as_of_set txs as_of in
  total_calls set == 100000000 ->
  total_adjustments set == 0 ->
  distributed_capital_of set == 40000000 ->
  nav_source = Some 120000000 ->
  holds (dpi m) 0.4 /\ holds (rvpi m) 1.2 /\ holds (tvpi m) 1.6
  /\ holds (moic m) 1.6.
Proof.
  intros m set Hcalls Hadj Hdist ->.
  assert (pic_of set == 100000000) as Hpic.
  { unfold pic_of. rewrite Hcalls, Hadj. reflexivity. }
  assert (~ pic_of set == 0) as Hp.
  { rewrite Hpic. discriminate. }
  destruct (ratios_defined (distributed_capital_of set) 120000000
              (pic_of set) Hp) as (Hd & _ & Hk & r & Hr & Hrv & Ht).
  unfold m, get_metrics. cbn [dpi rvpi tvpi moic nav_of].
  fold set. rewrite Ht, Hd, Hk, Hr. cbn [holds].
  rewrite ?Hrv, Hdist, Hpic.
  split_and!; reflexivity.
Qed.

(** *** The IRR routine *)

Lemma is_negative_spec (cf : CashFlow) : is_negative cf = true <-> cf.1 < 0.
Proof.
  unfold is_negative. rewrite negb_true_iff, <- not_true_iff_false, Qle_bool_iff.
  split; [apply Qnot_le_lt | apply Qlt_not_le].
Qed.

Lemma is_positive_spec (cf : CashFlow) : is_positive cf = true <-> 0 < cf.1.
Proof.
  unfold is_positive. rewrite negb_true_iff, <- not_true_iff_false, Qle_bool_iff.
  split; [apply Qnot_le_lt | apply Qlt_not_le].
Qed.

Lemma existsb_Exists {A} (f : A -> bool) (P : A -> Prop) (l : list A) :
  (forall x, f x = true <-> P x) -> existsb f l = true <-> Exists P l.
Proof.
  intros Hf. induction l as [| x l IH]; simpl.
  - split; [done | by intros ?%Exists_nil].
  - rewrite Exists_cons, orb_true_iff, Hf, IH. done.
Qed.

Lemma converged_spec (f : Q -> Q) (e : Estimate) :
  converged f e = true <-> Qabs (f (rate e)) < tolerance.
Proof.
  unfold converged. rewrite negb_true_iff, <- not_true_iff_false, Qle_bool_iff.
  split; [apply Qnot_le_lt | apply Qlt_not_le].
Qed.

(** The iteration gives up when no estimate within the cap meets the
    tolerance. *)
Lemma solve_gives_up (f : Q -> Q) (n : nat) (e : Estimate) :
  (forall k, (k < n)%nat -> tolerance <= Qabs (f (rate (Nat.iter k (refine f) e)))) ->
  solve n f e = None.
Proof.
  revert e. induction n as [| n IH]; intros e Hk; [done |].
  simpl. destruct (converged f e) eqn:Hc.
  - apply converged_spec in Hc. specialize (Hk 0%nat ltac:(lia)). simpl in Hk.
    by apply Qlt_not_le in Hc.
  - apply IH. intros k Hlt. specialize (Hk (S k) ltac:(lia)).
    by rewrite Nat.iter_succ_r in Hk.
Qed.

(** A rate that the iteration returns meets the tolerance. *)
Lemma solve_sound (f : Q -> Q) (n : nat) (e : Estimate) (r : Q) :
  solve n f e = Some r -> Qabs (f r) < tolerance.
Proof.
  revert e. induction n as [| n IH]; intros e; [done |].
  simpl. destruct (converged f e) eqn:Hc.
  - intros [= <-]. by apply converged_spec.
  - apply IH.
Qed.

(** C5. The IRR routine returns null when the series lacks a negative or
    lacks a positive cash flow, and returns null when no estimate within
    the iteration cap meets the tolerance; on every series it returns,
    either null or a rate whose NPV is within the tolerance. *)
Theorem irr_null_not_raise (cfs : list CashFlow) :
  (~ (Exists (fun cf : CashFlow => cf.1 < 0) cfs
      /\ Exists (fun cf : CashFlow => 0 < cf.1) cfs) ->
   irr_of cfs = None)
  /\ ((forall k, (k < max_iterations)%nat ->
         tolerance <= Qabs (npv cfs (rate (Nat.iter k (refine (npv cfs)) start)))) ->
      irr_of cfs = None)
  /\ (irr_of cfs = None
      \/ exists r, irr_of cfs = Some r /\ Qabs (npv cfs r) < tolerance).
Proof.
  unfold irr_of. split_and!.
  - intros Hmix.
    destruct (existsb is_negative cfs) eqn:Hneg; [| done].
    destruct (existsb is_positive cfs) eqn:Hpos; [| done].
    exfalso. apply Hmix. split.
    + by apply (existsb_Exists _ _ _ is_negative_spec).
    + by apply (existsb_Exists _ _ _ is_positive_spec).
  - intros Hk. destruct (_ && _); [| done]. by apply solve_gives_up.
  - destruct (_ && _); [| by left].
    destruct (solve max_iterations (npv cfs) start) as [r |] eqn:Hs; [| by left].
    right. exists r. split; [done |]. by apply solve_sound in Hs.
Qed.

End Numerics.

(** *** A concrete engine for the examples: bisection on [-0.99, 10],
    whole-year discounting, the cap and tolerance the specification
    quotes. *)

Definition pow_whole (x y : Q) : Q := Qpower x (Qfloor y).

Definition bisect_start : Q * Q := (-0.99, 10).

Definition bisect_rate (e : Q * Q) : Q := (e.1 + e.2) / 2.

Definition bisect (f : Q -> Q) (e : Q * Q) : Q * Q :=
  let mid := bisect_rate e in
  if Qle_bool 0 (f e.1 * f mid) then (mid, e.2) else (e.1, mid).

Definition metrics_example : list Transaction -> option Q -> option Z -> Snapshot :=
  get_metrics pow_whole 100 0.000001 (Q * Q) bisect_start bisect_rate bisect.

(** Two calls of 60 and 40 million, one distribution of 40 million. *)
Definition velocity_ventures : list Transaction :=
  [ capital_call 60000000 0 "investment";
    capital_call 40000000 365 "investment";
    distribution 40000000 730 "return of capital" false ].

Example velocity_ventures_pic : pic (metrics_example velocity_ventures (Some 120000000) None)
                                = Some (60000000 + (40000000 + 0) + 0).
Proof. reflexivity. Qed.

Lemma tvpi_is_dpi_plus_rvpi_witness :
  exists d r t k,
    dpi (metrics_example velocity_ventures (Some 120000000) None) = Some d
    /\ rvpi (metrics_example velocity_ventures (Some 120000000) None) = Some r
    /\ tvpi (metrics_example velocity_ventures (Some 120000000) None) = Some t
    /\ moic (metrics_example velocity_ventures (Some 120000000) None) = Some k
    /\ t == d + r
    /\ t == (distributed_capital_of velocity_ventures + 120000000)
            / pic_of velocity_ventures
    /\ k == t.
Proof.
  apply (tvpi_is_dpi_plus_rvpi pow_whole 100 0.000001 (Q * Q) bisect_start
           bisect_rate bisect velocity_ventures (Some 120000000) None).
  discriminate.
Defined.

Lemma velocity_ventures_metrics_witness :
  holds (dpi (metrics_example velocity_ventures (Some 120000000) None)) 0.4
  /\ holds (rvpi (metrics_example velocity_ventures (Some 120000000) None)) 1.2
  /\ holds (tvpi (metrics_example velocity_ventures (Some 120000000) None)) 1.6
  /\ holds (moic (metrics_example velocity_ventures (Some 120000000) None)) 1.6.
Proof.
  apply (velocity_ventures_metrics pow_whole 100 0.000001 (Q * Q) bisect_start
           bisect_rate bisect velocity_ventures (Some 120000000) None);
    reflexivity.
Defined.

(** A fund with calls only has no positive flow once its NAV is 0: the
    IRR is null. *)
Example irr_calls_only :
  irr (metrics_example [capital_call 1000 0 "investment"] None None) = None.
Proof. reflexivity. Qed.

(** C3 as first stated fails: a fund with no transactions and a NAV of 5
    has PIC 0 and a NAV other than 0, and its rvpi is null, not the number
    NAV / PIC (nor any other number). *)
Lemma rvpi_is_no_quotient_without_capital :
  holds (pic (metrics_example [] (Some 5) None)) 0
  /\ ~ holds (nav (metrics_example [] (Some 5) None)) 0
  /\ rvpi (metrics_example [] (Some 5) None) = None
  /\ ~ holds (rvpi (metrics_example [] (Some 5) None)) (5 / pic_of []).
Proof.
  split_and!; [reflexivity | discriminate | reflexivity | by intros []].
Qed.

(** No capital and a NAV: the multiples over PIC are null, rvpi too. *)
Example rvpi_without_capital :
  rvpi (metrics_example [] (Some 5) None) = None
  /\ rvpi (metrics_example [] None None) = Some 0.
Proof. by split. Qed.

End MetricsEngine.

(** ** The table classifier (back end)

    The Python table parser is not among the sources; its definitions
    below follow section 4.1 of the specification. *)
Module TableClassifier.

(** Modelled from the spec: the missing table parser;
    the transaction-type labels. *)
Inductive Label : Type := capital_call | distribution | adjustment.

(** A calendar date. *)
Record Date : Type := {
  year : Z;
  month : Z;
  day : Z
}.



Definition digit (c : ascii) : option Z :=
  let n := Z.of_nat (nat_of_ascii c) in
  if (48 <=? n) && (n <=? 57) then Some (n - 48) else None.

(** The number written by a run of decimal digits, after [acc]. *)
Fixpoint number (cs : list ascii) (acc : Z) : option Z :=
  match cs with
  | [] => Some acc
  | c :: rest =>
      match digit c with
      | Some d => number rest (10 * acc + d)
      | None => None
      end
  end.

Definition leap (y : Z) : bool :=
  ((y mod 4 =? 0) && negb (y mod 100 =? 0)) || (y mod 400 =? 0).

Definition days_in_month (y m : Z) : Z :=
  if m =? 2 then (if leap y then 29 else 28)
  else if (m =? 4) || (m =? 6) || (m =? 9) || (m =? 11) then 30
  else 31.

(** A date of the calendar, or nothing. *)
Definition make_date (y m d : option Z) : option Date :=
  match y, m, d with
  | Some y, Some m, Some d =>
      if (1 <=? y) && (1 <=? m) && (m <=? 12) && (1 <=? d) && (d <=? days_in_month y m)
      then Some {| year := y; month := m; day := d |}
      else None
  | _, _, _ => None
  end.

(** Modelled from the spec: the missing table parser;
    "Date parsing accepts MM/DD/YYYY and
    YYYY-MM-DD; any other format fails". *)
Definition parse_date (cell : string) : option Date :=
  match list_ascii_of_string cell with
  | [c0; c1; c2; c3; c4; c5; c6; c7; c8; c9] =>
      if Ascii.eqb c2 "/" && Ascii.eqb c5 "/"
      then make_date (number [c6; c7; c8; c9] 0) (number [c0; c1] 0) (number [c3; c4] 0)
      else if Ascii.eqb c4 "-" && Ascii.eqb c7 "-"
      then make_date (number [c0; c1; c2; c3] 0) (number [c5; c6] 0) (number [c8; c9] 0)
      else None
  | _ => None
  end.

(** The digits before and after the point, as a rational. *)
Definition decimal (whole frac : list ascii) : option Q :=
  match whole ++ frac, number whole 0, number frac 0 with
  | _ :: _, Some w, Some f =>
      Some (inject_Z w + inject_Z f / inject_Z (10 ^ Z.of_nat (length frac)))%Q
  | _, _, _ => None
  end.

Fixpoint split_point (cs : list ascii) : list ascii * option (list ascii) :=
  match cs with
  | [] => ([], None)
  | c :: rest =>
      if Ascii.eqb c "." then ([], Some rest)
      else let '(whole, frac) := split_point rest in (c :: whole, frac)
  end.

(** Modelled from the spec: the missing table parser;
    "Amount parsing strips currency
    symbols/thousands separators; a non-numeric amount skips the row". *)
Definition parse_amount (cell : string) : option Q :=
  let stripped :=
    filter (fun c => negb (Ascii.eqb c "$" || Ascii.eqb c ","))
           (list_ascii_of_string cell) in
  let '(negative, body) :=
    match stripped with
    | c :: rest => if Ascii.eqb c "-" then (true, rest) else (false, stripped)
    | [] => (false, [])
    end in
  let '(whole, frac) := split_point body in
  match decimal whole (default [] frac) with
  | Some q => Some (if negative then (- q)%Q else q)
  | None => None
  end.

Definition lower_ascii (c : ascii) : ascii :=
  let n := nat_of_ascii c in
  if (65 <=? n)%nat && (n <=? 90)%nat then ascii_of_nat (n + 32) else c.

Fixpoint lower (s : string) : string :=
  match s with
  | EmptyString => EmptyString
  | String c rest => String (lower_ascii c) (lower rest)
  end.

(** [needle in haystack] on strings. *)
Definition contains (needle haystack : string) : bool := Js.includes needle haystack.

(** Modelled from the spec: the missing table parser;
    the lexicon per type ("capital call", "call
    date" vs "distribution", "recallable"), kept as data. *)
Definition lexicon (label : Label) : list string :=
  match label with
  | capital_call => ["capital call"; "call date"]
  | distribution => ["distribution"; "recallable"]
  | adjustment => ["adjustment"]
  end.

(** Some header cell holds a token of the label's lexicon. *)
Definition header_matches (header : list string) (label : Label) : bool :=
  existsb (fun cell => existsb (fun token => contains token (lower cell)) (lexicon label))
          header.

Definition matched (header : list string) : list Label :=
  List.filter (header_matches header) [capital_call; distribution; adjustment].







Section WithShapeVote.

(** The fallback for an ambiguous header, "column-shape heuristics ... and
    majority-vote across rows", which the specification does not detail. *)
Variable shape_vote : list (list string) -> option Label.



End WithShapeVote.

Example parse_date_us : parse_date "01/15/2024" = Some {| year := 2024; month := 1; day := 15 |}.
Proof. reflexivity. Qed.

Example parse_date_iso : parse_date "2024-02-29" = Some {| year := 2024; month := 2; day := 29 |}.
Proof. reflexivity. Qed.

Example parse_date_words : parse_date "Jan 15 2024" = None.
Proof. reflexivity. Qed.

Example parse_date_day : parse_date "02/30/2024" = None.
Proof. reflexivity. Qed.

Example parse_amount_money : parse_amount "$1,250,000.50" = Some (1250000 + 50 / 100)%Q.
Proof. reflexivity. Qed.

Example parse_amount_words : parse_amount "n/a" = None.
Proof. reflexivity. Qed.

Example matched_recallable : matched ["Date"; "Amount"; "Recallable"] = [distribution].
Proof. reflexivity. Qed.











End TableClassifier.
